(** * CogView4 denoise invocation: a shallow embedding and its properties

    Source: [invokeai/app/invocations/cogview4_denoise.py].

    Python floats are IEEE binary64 numbers, so they are Rocq's primitive
    floats.  Python ints are [Z].  The torch tensor library, the diffusers
    scheduler and the services of the invocation context are external to the
    file: they are interfaces (type classes) here, and every general theorem
    holds for all their implementations.  A reference implementation of each
    interface, with IEEE arithmetic on lists of floats, is given to run the
    functions on concrete inputs.  A name that the file reads and nothing
    binds raises [NameError] where it is evaluated. *)

From Stdlib Require Import String ZArith List Bool Lia.
From Stdlib Require Import Floats.
Import ListNotations.

Set Warnings "-inexact-float".
Local Open Scope string_scope.
Local Open Scope list_scope.
Local Open Scope Z_scope.

(** ** Python values, exceptions and results *)

Inductive PyError : Type :=
| AssertionError
| ValueError (msg : string)
| ZeroDivisionError
| IndexError
| OverflowError
| NameError (name : string).

Inductive Res (A : Type) : Type :=
| Ok (a : A)
| Raise (e : PyError).

Arguments Ok {A} a.
Arguments Raise {A} e.

Definition res_bind {A B : Type} (r : Res A) (k : A -> Res B) : Res B :=
  match r with
  | Ok a => k a
  | Raise e => Raise e
  end.

Declare Scope res_scope.
Delimit Scope res_scope with res.
Notation "'let?' x ':=' r 'in' k" := (res_bind r (fun x => k))
  (at level 10, x pattern, r at level 100, k at level 200) : res_scope.
Local Open Scope res_scope.

Definition is_ok {A : Type} (r : Res A) : bool :=
  match r with Ok _ => true | Raise _ => false end.

(** [assert c] *)
Definition py_assert (c : bool) : Res unit :=
  if c then Ok tt else Raise AssertionError.

(** [len(l)] *)
Definition len {A : Type} (l : list A) : Z := Z.of_nat (length l).

(** [l[i]] for a non-negative index. *)
Definition py_index {A : Type} (l : list A) (i : Z) : Res A :=
  if i <? 0 then Raise IndexError
  else match nth_error l (Z.to_nat i) with
       | Some a => Ok a
       | None => Raise IndexError
       end.

(** [l * n]: a non-positive count gives the empty list. *)
Definition py_list_mul {A : Type} (l : list A) (n : Z) : list A :=
  concat (repeat l (Z.to_nat n)).

(** [a // b] on ints: floor division, [ZeroDivisionError] on a zero divisor. *)
Definition py_floordiv (a b : Z) : Res Z :=
  if b =? 0 then Raise ZeroDivisionError else Ok (a / b).

(** [float(z)]: the binary64 number nearest to [z]. *)
Definition float_of_Z (z : Z) : float :=
  SF2Prim (binary_normalize prec emax z 0 false).

(** [a / b] on ints: true division, correctly rounded for operands that are
    themselves binary64 numbers (all ints below 2^53). *)
Definition py_truediv (a b : Z) : Res float :=
  if b =? 0 then Raise ZeroDivisionError
  else Ok (float_of_Z a / float_of_Z b)%float.

(** [int(x)] on a float: truncation toward zero; [nan] and the infinities
    raise. *)
Definition py_int (x : float) : Res Z :=
  match Prim2SF x with
  | S754_zero _ => Ok 0
  | S754_infinity _ => Raise OverflowError
  | S754_nan => Raise (ValueError "cannot convert float NaN to integer")
  | S754_finite s m e =>
      let a := if 0 <=? e then Z.pos m * 2 ^ e else Z.pos m / 2 ^ (- e) in
      Ok (if s then - a else a)
  end.

(** [enumerate(l)] *)
Fixpoint enumerate_from {A : Type} (i : Z) (l : list A) : list (Z * A) :=
  match l with
  | [] => []
  | a :: l' => (i, a) :: enumerate_from (i + 1) l'
  end.

Definition enumerate {A : Type} (l : list A) : list (Z * A) := enumerate_from 0 l.

(** [zip(l1, l2, strict=True)]: a length mismatch is a [ValueError]. *)
Fixpoint zip_strict {A B : Type} (l1 : list A) (l2 : list B) : Res (list (A * B)) :=
  match l1, l2 with
  | [], [] => Ok []
  | a :: l1', b :: l2' =>
      let? r := zip_strict l1' l2' in Ok ((a, b) :: r)
  | _, _ => Raise (ValueError "zip() arguments have different lengths")
  end.

(** ** torch: devices, dtypes and the tensor interface *)

Inductive device : Type := cpu | cuda | mps.

Inductive dtype : Type := float16 | bfloat16 | float32 | float64 | int64.

Class Torch : Type := {
  Tensor : Type;
  Generator : Type;
  (** [torch.Generator(device=d)] and [g.manual_seed(seed)] *)
  torch_Generator : device -> Generator;
  manual_seed : Generator -> Z -> Generator;
  (** [torch.randn] with a shape, [device=], [dtype=] and [generator=] *)
  torch_randn : list Z -> device -> dtype -> Generator -> Tensor;
  (** [t.to(device=, dtype=)], either argument optional *)
  tensor_to : option device -> option dtype -> Tensor -> Tensor;
  (** [t.dtype] and [t.shape[0]] *)
  tensor_dtype : Tensor -> dtype;
  tensor_shape0 : Tensor -> Z;
  (** [torch.cat(ts, dim=0)] and [t.chunk(n)] *)
  torch_cat : list Tensor -> Tensor;
  tensor_chunk : Tensor -> Z -> list Tensor;
  (** [torch.linspace(start, end, steps)] *)
  torch_linspace : float -> float -> Z -> Tensor;
  (** [torch.tensor([x, ...], device=)] and [torch.tensor([(a, b)], dtype=, device=)] *)
  torch_tensor : list float -> device -> Tensor;
  torch_tensor_pairs : list (Z * Z) -> dtype -> device -> Tensor;
  (** [t.expand(n)] and [t.tolist()] *)
  tensor_expand : Tensor -> Z -> Tensor;
  tensor_tolist : Tensor -> list float;
  (** [t1 + t2], [t1 - t2], [s * t] and [t / s] with a Python scalar [s] *)
  tensor_add : Tensor -> Tensor -> Tensor;
  tensor_sub : Tensor -> Tensor -> Tensor;
  scalar_mul : float -> Tensor -> Tensor;
  tensor_div_scalar : Tensor -> float -> Tensor;
}.

(** ** diffusers: the flow-matching scheduler interface *)

Record SchedulerConfig : Type := {
  num_train_timesteps : Z;
  shift : float;
  use_dynamic_shifting : bool;
  base_shift : float;
  max_shift : float;
  base_image_seq_len : Z;
  max_image_seq_len : Z;
  invert_sigmas : bool;
  shift_terminal : option float;
  use_karras_sigmas : bool;
  use_exponential_sigmas : bool;
  use_beta_sigmas : bool;
  time_shift_type : string;
}.

Class Diffusers `{Torch} : Type := {
  SchedulerState : Type;
  scheduler_init : SchedulerConfig -> SchedulerState;
  (** [scheduler.set_timesteps(num_inference_steps=, device=, sigmas=, mu=, timesteps=)] *)
  scheduler_set_timesteps :
    SchedulerConfig -> SchedulerState -> Z -> device -> Tensor -> float -> Tensor -> SchedulerState;
  (** [scheduler.timesteps] *)
  scheduler_timesteps : SchedulerState -> Tensor;
}.

Record FlowMatchEulerDiscreteScheduler `{Diffusers} : Type := {
  config : SchedulerConfig;
  state : SchedulerState;
}.

(** ** The invocation and the services it calls *)

(** [cfg_scale: float | list[float]]; the last case stands for a value of any
    other type, which [_prepare_cfg_scale] rejects. *)
Inductive CfgScale : Type :=
| CfgFloat (s : float)
| CfgList (l : list float)
| CfgOther (type_name : string).

(** The fields of [CogView4DenoiseInvocation].  [latents], [denoising_start]
    and [denoising_end] are read by [_run_diffusion] as fields of [self]; the
    class body does not declare them, they are taken as inputs here. *)
Record CogView4DenoiseInvocation : Type := {
  positive_conditioning : string;   (* [.conditioning_name] *)
  negative_conditioning : string;   (* [.conditioning_name] *)
  cfg_scale : CfgScale;
  width : Z;
  height : Z;
  steps : Z;
  seed : Z;
  latents : option string;          (* [.latents_name] when present *)
  denoising_start : float;
  denoising_end : float;
}.

Record ModelAttrs : Type := {
  attr_name : string;
  attr_base : string;
  attr_type : string;
  attr_submodel_type : string;
}.

Inductive ConditioningInfo `{Torch} : Type :=
| CogView4ConditioningInfo (glm_embeds : Tensor)
| OtherConditioningInfo.

Record InpaintExtension `{Torch} : Type := {
  ext_init_latents : Tensor;
  ext_inpaint_mask : Tensor;
  ext_noise : Tensor;
}.

Record PipelineIntermediateState `{Torch} : Type := {
  step : Z;
  order : Z;
  total_steps : Z;
  timestep : Z;
  st_latents : Tensor;
}.

Class Services `{Torch} : Type := {
  (** [invokeai.app.invocations.constants.LATENT_SCALE_FACTOR] *)
  LATENT_SCALE_FACTOR : Z;
  (** [TorchDevice.choose_torch_dtype()] and [TorchDevice.choose_torch_device()] *)
  choose_torch_dtype : dtype;
  choose_torch_device : device;
  (** model objects, their classes and their configuration *)
  Model : Type;
  isinstance_CogView4Transformer2DModel : Model -> bool;
  isinstance_SD3Transformer2DModel : Model -> bool;
  config_patch_size : Model -> Z;
  config_in_channels : Model -> option Z;   (* [Some n] when the attribute is an int *)
  (** [context.models.load_by_attrs(...)]: the loaded [.model]; and the
      transformer that [model_on_device()] yields *)
  load_by_attrs : ModelAttrs -> Model;
  model_on_device : Model -> Model;
  (** [transformer(hidden_states=, timestep=, encoder_hidden_states=,
      pooled_projections=, joint_attention_kwargs=None, return_dict=False)[0]] *)
  transformer_forward : Model -> Tensor -> Tensor -> Tensor -> Tensor -> Tensor;
  (** [context.conditioning.load(name).conditionings] and [context.tensors.load(name)] *)
  conditioning_load : string -> list ConditioningInfo;
  tensors_load : string -> Tensor;
  (** [invokeai.backend.flux.sampling_utils.clip_timestep_schedule_fractional] *)
  clip_timestep_schedule_fractional : list float -> float -> float -> Res (list float);
  (** [self._prep_inpaint_mask(context, latents)], used but not defined in the class *)
  _prep_inpaint_mask : CogView4DenoiseInvocation -> Tensor -> option Tensor;
  (** [InpaintExtension.merge_intermediate_latents_with_init_latents] *)
  merge_intermediate_latents_with_init_latents : InpaintExtension -> Tensor -> float -> Tensor;
  (** [x ** y] on floats *)
  float_pow : float -> float -> float;
}.

(** ** Effects: the events of a run, with exceptions *)

Inductive Event `{Torch} : Type :=
| EvLoadModel (attrs : ModelAttrs)
| EvLoadConditioning (name : string)
| EvLoadTensor (name : string)
| EvTransformer (hidden_states timestep_in encoder_hidden_states pooled_projections : Tensor)
| EvStepCallback (st : PipelineIntermediateState) (base : string).

(** A computation yields the events it performed, in order, and its result
    or the exception that stopped it. *)
Definition M `{Torch} (A : Type) : Type := (list Event * Res A)%type.

Definition ret `{Torch} {A : Type} (a : A) : M A := ([], Ok a).

Definition bind `{Torch} {A B : Type} (m : M A) (k : A -> M B) : M B :=
  match m with
  | (tr, Ok a) => let '(tr', r) := k a in (tr ++ tr', r)
  | (tr, Raise e) => (tr, Raise e)
  end.

Definition emit `{Torch} (ev : Event) : M unit := ([ev], Ok tt).

Definition lift `{Torch} {A : Type} (r : Res A) : M A := ([], r).

Definition raise `{Torch} {A : Type} (e : PyError) : M A := ([], Raise e).

(** The evaluation of a name that nothing binds: no parameter or assignment
    of the function, no import, class or global of the module. *)
Definition unbound_name `{Torch} {A : Type} (name : string) : M A :=
  raise (NameError name).

Declare Scope m_scope.
Delimit Scope m_scope with m.
Notation "x <- m ;; k" := (bind m (fun x => k))
  (at level 100, m at next level, right associativity) : m_scope.
Notation "m ';;;' k" := (bind m (fun _ => k))
  (at level 100, right associativity) : m_scope.

Local Open Scope m_scope.

(** ** The methods of [CogView4DenoiseInvocation] *)

Section Invocation.

Context `{T : Torch} `{TS : !Services} `{DF : !Diffusers}.

(** [_load_text_conditioning] (lines 59-73). *)
Definition _load_text_conditioning
    (conditioning_name : string) (dt : dtype) (dev : device) : M Tensor :=
  emit (EvLoadConditioning conditioning_name) ;;;
  let conditionings := conditioning_load conditioning_name in
  lift (py_assert (len conditionings =? 1)) ;;;
  cogview4_conditioning <- lift (py_index conditionings 0) ;;
  match cogview4_conditioning with
  | CogView4ConditioningInfo glm_embeds =>
      ret (tensor_to (Some dev) (Some dt) glm_embeds)
  | OtherConditioningInfo => raise AssertionError
  end.

(** [_get_noise] (lines 75-97): noise is drawn on [rand_device] in
    [rand_dtype] from a generator seeded with [seed], then cast. *)
Definition _get_noise
    (batch_size num_channels_latents height width : Z)
    (dt : dtype) (dev : device) (seed : Z) : Res Tensor :=
  let rand_device := cpu in
  let rand_dtype := float16 in
  let? h := py_floordiv height LATENT_SCALE_FACTOR in
  let? w := py_floordiv width LATENT_SCALE_FACTOR in
  Ok (tensor_to (Some dev) (Some dt)
        (torch_randn [batch_size; num_channels_latents; h; w] rand_device rand_dtype
           (manual_seed (torch_Generator rand_device) seed))).

(** [_prepare_cfg_scale] (lines 99-117). *)
Definition _prepare_cfg_scale
    (self : CogView4DenoiseInvocation) (num_timesteps : Z) : Res (list float) :=
  match cfg_scale self with
  | CfgFloat s => Ok (py_list_mul [s] num_timesteps)
  | CfgList l =>
      let? _ := py_assert (len l =? num_timesteps) in
      Ok l
  | CfgOther type_name => Raise (ValueError ("Invalid CFG scale type: " ++ type_name)%string)
  end.

(** [_init_scheduler] (lines 119-136). *)
Definition scheduler_defaults : SchedulerConfig := {|
  num_train_timesteps := 1000;
  shift := 1.0;
  use_dynamic_shifting := true;
  base_shift := 0.25;
  max_shift := 0.75;
  base_image_seq_len := 256;
  max_image_seq_len := 4096;
  invert_sigmas := false;
  shift_terminal := None;
  use_karras_sigmas := false;
  use_exponential_sigmas := false;
  use_beta_sigmas := false;
  time_shift_type := "linear";
|}.

Definition _init_scheduler : FlowMatchEulerDiscreteScheduler :=
  {| config := scheduler_defaults; state := scheduler_init scheduler_defaults |}.

(** [_calculate_timestep_shift] (lines 138-147). *)
Definition _calculate_timestep_shift
    (image_seq_len base_seq_len : Z) (base_shift max_shift : float) : Res float :=
  let? q := py_truediv image_seq_len base_seq_len in
  let m := float_pow q 0.5 in
  let mu := (m * max_shift + base_shift)%float in
  Ok mu.

(** [_prepare_timesteps] (lines 149-175); the scheduler object is updated in
    place by [set_timesteps], so the new scheduler is returned with the list. *)
Definition _prepare_timesteps
    (scheduler : FlowMatchEulerDiscreteScheduler) (num_steps image_seq_len : Z)
    : Res (FlowMatchEulerDiscreteScheduler * list float) :=
  let cfg := config scheduler in
  let timesteps :=
    torch_linspace (float_of_Z (num_train_timesteps cfg)) 1.0 num_steps in
  let timesteps := tensor_to None (Some float32) (tensor_to None (Some int64) timesteps) in
  let sigmas := tensor_div_scalar timesteps (float_of_Z (num_train_timesteps cfg)) in
  let? mu := _calculate_timestep_shift
               image_seq_len (base_image_seq_len cfg) (base_shift cfg) (max_shift cfg) in
  let scheduler :=
    {| config := cfg;
       state := scheduler_set_timesteps cfg (state scheduler)
                  num_steps choose_torch_device sigmas mu timesteps |} in
  let timesteps := scheduler_timesteps (state scheduler) in
  Ok (scheduler, tensor_tolist timesteps).

(** The denoising loop of [_run_diffusion] (lines 296-335).  The local
    variables of [_run_diffusion] that the loop body reads are its
    parameters; [steps_left] is the enumerated list of timestep pairs still
    to run and [latents] the loop-carried tensor.

    The arguments of the transformer call are evaluated before the call, in
    their order.  The name [pooled_prompt_embeds] of line 308 is bound
    nowhere in the file, so its evaluation raises [NameError]: the lines
    after it are written as in the source, and are never reached. *)
Fixpoint denoise_loop
    (do_classifier_free_guidance : bool) (transformer : Model) (dev : device)
    (prompt_embeds : Tensor) (cfg_scale : list float) (total_steps : Z)
    (inpaint_extension : option InpaintExtension)
    (steps_left : list (Z * (float * float))) (latents : Tensor) : M Tensor :=
  match steps_left with
  | [] => ret latents
  | (step_idx, (t_curr, t_prev)) :: rest =>
      let latent_model_input :=
        if do_classifier_free_guidance then torch_cat [latents; latents] else latents in
      let timestep :=
        tensor_expand (torch_tensor [(t_curr * 1000)%float] dev)
                      (tensor_shape0 latent_model_input) in
      pooled_prompt_embeds <- unbound_name "pooled_prompt_embeds" ;;
      emit (EvTransformer latent_model_input timestep prompt_embeds pooled_prompt_embeds) ;;;
      let noise_pred :=
        transformer_forward transformer
          latent_model_input timestep prompt_embeds pooled_prompt_embeds in
      noise_pred <-
        (if do_classifier_free_guidance then
           match tensor_chunk noise_pred 2 with
           | [noise_pred_uncond; noise_pred_cond] =>
               scale <- lift (py_index cfg_scale step_idx) ;;
               ret (tensor_add noise_pred_uncond
                      (scalar_mul scale (tensor_sub noise_pred_cond noise_pred_uncond)))
           | _ => raise (ValueError "wrong number of values to unpack")
           end
         else ret noise_pred) ;;
      let latents_dtype := tensor_dtype latents in
      let latents := tensor_to None (Some float32) latents in
      let latents := tensor_add latents (scalar_mul (t_prev - t_curr)%float noise_pred) in
      let latents := tensor_to None (Some latents_dtype) latents in
      let latents :=
        match inpaint_extension with
        | Some ext => merge_intermediate_latents_with_init_latents ext latents t_prev
        | None => latents
        end in
      timestep_int <- lift (py_int t_curr) ;;
      emit (EvStepCallback
              {| step := step_idx + 1; order := 1; total_steps := total_steps;
                 timestep := timestep_int; st_latents := latents |}
              "StableDiffusion3") ;;;
      denoise_loop do_classifier_free_guidance transformer dev prompt_embeds cfg_scale
        total_steps inpaint_extension rest latents
  end.

Definition transformer_attrs : ModelAttrs := {|
  attr_name := "CogView4";
  attr_base := "StableDiffusion3";
  attr_type := "Main";
  attr_submodel_type := "Transformer";
|}.

(** [_run_diffusion] (lines 177-337). *)
Definition _run_diffusion (self : CogView4DenoiseInvocation) : M Tensor :=
  let inference_dtype := choose_torch_dtype in
  let dev := choose_torch_device in
  emit (EvLoadModel transformer_attrs) ;;;
  let transformer_info := load_by_attrs transformer_attrs in
  lift (py_assert (isinstance_CogView4Transformer2DModel transformer_info)) ;;;
  (* Load/process the conditioning data. *)
  let do_classifier_free_guidance := true in
  pos_prompt_embeds <-
    _load_text_conditioning (positive_conditioning self) inference_dtype dev ;;
  neg_prompt_embeds <-
    _load_text_conditioning (negative_conditioning self) inference_dtype dev ;;
  let prompt_embeds := torch_cat [neg_prompt_embeds; pos_prompt_embeds] in
  (* Prepare misc. conditioning variables (never read afterwards). *)
  let original_size :=
    torch_tensor_pairs [(height self, width self)] (tensor_dtype prompt_embeds) dev in
  let target_size :=
    torch_tensor_pairs [(height self, width self)] (tensor_dtype prompt_embeds) dev in
  let crops_coords_top_left :=
    torch_tensor_pairs [(0, 0)] (tensor_dtype prompt_embeds) dev in
  (* Prepare timesteps *)
  lat_h <- lift (py_floordiv (height self) LATENT_SCALE_FACTOR) ;;
  lat_w <- lift (py_floordiv (width self) LATENT_SCALE_FACTOR) ;;
  image_seq_len <-
    lift (py_floordiv (lat_h * lat_w) (config_patch_size transformer_info ^ 2)) ;;
  let scheduler := _init_scheduler in
  prepared <- lift (_prepare_timesteps scheduler (steps self) image_seq_len) ;;
  let timesteps := snd prepared in
  (* Prepare the timestep schedule: the variable [timesteps] is assigned anew. *)
  let timesteps := tensor_tolist (torch_linspace 1 0 (steps self + 1)) in
  timesteps <-
    lift (clip_timestep_schedule_fractional
            timesteps (denoising_start self) (denoising_end self)) ;;
  let total_steps := len timesteps - 1 in
  (* Prepare the CFG scale list. *)
  cfg_scale <- lift (_prepare_cfg_scale self total_steps) ;;
  (* Load the input latents, if provided. *)
  init_latents <-
    match latents self with
    | Some latents_name =>
        emit (EvLoadTensor latents_name) ;;;
        ret (Some (tensor_to (Some dev) (Some inference_dtype) (tensors_load latents_name)))
    | None => ret None
    end ;;
  (* Generate initial latent noise. *)
  num_channels_latents <-
    match config_in_channels transformer_info with
    | Some n => ret n
    | None => raise AssertionError
    end ;;
  noise <-
    lift (_get_noise 1 num_channels_latents (height self) (width self)
            inference_dtype dev (seed self)) ;;
  (* Prepare input latent image. *)
  latents <-
    match init_latents with
    | Some init_latents =>
        t_0 <- lift (py_index timesteps 0) ;;
        ret (tensor_add (scalar_mul t_0 noise) (scalar_mul (1.0 - t_0)%float init_latents))
    | None =>
        if (1e-5 <? denoising_start self)%float
        then raise (ValueError
                      "denoising_start should be 0 when initial latents are not provided.")
        else ret noise
    end ;;
  (* Short-circuit: no denoising steps to take. *)
  if len timesteps <=? 1 then ret latents
  else
    (* Prepare inpaint extension. *)
    let inpaint_mask := _prep_inpaint_mask self latents in
    inpaint_extension <-
      match inpaint_mask with
      | Some mask =>
          match init_latents with
          | Some init_latents =>
              ret (Some {| ext_init_latents := init_latents;
                           ext_inpaint_mask := mask;
                           ext_noise := noise |})
          | None => raise AssertionError
          end
      | None => ret None
      end ;;
    t_first <- lift (py_index timesteps 0) ;;
    timestep_int <- lift (py_int t_first) ;;
    emit (EvStepCallback
            {| step := 0; order := 1; total_steps := total_steps;
               timestep := timestep_int; st_latents := latents |}
            "StableDiffusion3") ;;;
    let transformer := model_on_device transformer_info in
    lift (py_assert (isinstance_SD3Transformer2DModel transformer)) ;;;
    pairs <- lift (zip_strict (removelast timesteps) (tl timesteps)) ;;
    denoise_loop do_classifier_free_guidance transformer dev prompt_embeds cfg_scale
      total_steps inpaint_extension (enumerate pairs) latents.

End Invocation.

(** ** Reading a run's events *)

Section Observers.

Context `{T : Torch}.

(** The progress snapshots handed to the step callback, in order. *)
Fixpoint snapshots (tr : list Event) : list PipelineIntermediateState :=
  match tr with
  | [] => []
  | EvStepCallback st _ :: tr' => st :: snapshots tr'
  | _ :: tr' => snapshots tr'
  end.

(** The transformer invocations, in order, each as its hidden states,
    timestep and text embeddings. *)
Fixpoint transformer_calls (tr : list Event) : list (Tensor * Tensor * Tensor) :=
  match tr with
  | [] => []
  | EvTransformer h t e _ :: tr' => (h, t, e) :: transformer_calls tr'
  | _ :: tr' => transformer_calls tr'
  end.

End Observers.

(** ** A reference implementation of the interfaces

    Tensors are batches of rows of floats, tagged with a dtype and a device;
    a one-dimensional tensor has one value per row.  Every value of a tensor
    is kept representable in the tensor's dtype: an operation is computed in
    binary64 and rounded to the nearest value of the result format, ties to
    even, which is the IEEE result of the operation in that format. *)

Module Ref.

Record RTensor : Type := {
  rt_dtype : dtype;
  rt_device : device;
  rt_rows : list (list float);
}.

(** Precision and exponent bound of the floating-point dtypes. *)
Definition format_of (d : dtype) : Z * Z :=
  match d with
  | float16 => (11, 16)
  | bfloat16 => (8, 128)
  | float32 => (24, 128)
  | float64 | int64 => (53, 1024)
  end.

Definition truncate (x : float) : float :=
  match py_int x with
  | Ok z => float_of_Z z
  | Raise _ => x
  end.

Definition round_to (d : dtype) (x : float) : float :=
  match d with
  | int64 => truncate x
  | _ =>
      match Prim2SF x with
      | S754_finite s m e =>
          let '(p, emx) := format_of d in SF2Prim (binary_round p emx s m e)
      | _ => x
      end
  end.

(** The type in which torch computes an operation of a given dtype. *)
Definition opmath (d : dtype) : dtype :=
  match d with
  | float16 | bfloat16 => float32
  | _ => d
  end.

Definition rank (d : dtype) : Z :=
  match d with
  | int64 => 0 | float16 => 1 | bfloat16 => 1 | float32 => 2 | float64 => 3
  end.

Definition promote (d1 d2 : dtype) : dtype :=
  if rank d1 <? rank d2 then d2
  else if rank d2 <? rank d1 then d1
  else match d1, d2 with
       | float16, bfloat16 | bfloat16, float16 => float32
       | _, _ => d1
       end.

Definition map_rows (f : float -> float) (rows : list (list float)) : list (list float) :=
  map (map f) rows.

Fixpoint zip_with (f : float -> float -> float) (l1 l2 : list float) : list float :=
  match l1, l2 with
  | x :: l1', y :: l2' => f x y :: zip_with f l1' l2'
  | _, _ => []
  end.

Fixpoint zip_rows (f : float -> float -> float) (r1 r2 : list (list float))
    : list (list float) :=
  match r1, r2 with
  | x :: r1', y :: r2' => zip_with f x y :: zip_rows f r1' r2'
  | _, _ => []
  end.

Definition binop (f : float -> float -> float) (t1 t2 : RTensor) : RTensor :=
  let d := promote (rt_dtype t1) (rt_dtype t2) in
  {| rt_dtype := d; rt_device := rt_device t1;
     rt_rows := zip_rows (fun x y => round_to d (f x y)) (rt_rows t1) (rt_rows t2) |}.

Definition scalar_op (f : float -> float -> float) (s : float) (t : RTensor) : RTensor :=
  let d := rt_dtype t in
  let s' := round_to (opmath d) s in
  {| rt_dtype := d; rt_device := rt_device t;
     rt_rows := map_rows (fun x => round_to d (round_to (opmath d) (f s' x))) (rt_rows t) |}.

Definition to_ (dev : option device) (dt : option dtype) (t : RTensor) : RTensor :=
  {| rt_dtype := match dt with Some d => d | None => rt_dtype t end;
     rt_device := match dev with Some d => d | None => rt_device t end;
     rt_rows := match dt with
                | Some d => map_rows (round_to d) (rt_rows t)
                | None => rt_rows t
                end |}.

(** A stand-in for the pseudo-random generator: a linear congruential
    sequence started at the seed, mapped to values in [-2, 2]. *)
Record RGenerator : Type := { g_device : device; g_seed : Z }.

Definition lcg (x : Z) : Z := (1103515245 * x + 12345) mod 2147483648.

Fixpoint draws (n : nat) (x : Z) : list float :=
  match n with
  | O => []
  | S n' =>
      let x' := lcg x in
      (float_of_Z (x' mod 2001 - 1000) / 500)%float :: draws n' x'
  end.

Fixpoint draw_rows (rows : nat) (cols : nat) (x : Z) : list (list float) :=
  match rows with
  | O => []
  | S r => draws cols x :: draw_rows r cols (Nat.iter cols lcg x)
  end.

Definition randn (shape : list Z) (dev : device) (dt : dtype) (g : RGenerator) : RTensor :=
  let rows := Z.to_nat (hd 1 shape) in
  let cols := Z.to_nat (fold_right Z.mul 1 (tl shape)) in
  {| rt_dtype := dt; rt_device := dev;
     rt_rows := map_rows (round_to dt) (draw_rows rows cols (g_seed g)) |}.

Definition cat (ts : list RTensor) : RTensor :=
  match ts with
  | [] => {| rt_dtype := float32; rt_device := cpu; rt_rows := [] |}
  | t :: _ =>
      {| rt_dtype := rt_dtype t; rt_device := rt_device t;
         rt_rows := concat (map rt_rows ts) |}
  end.

Fixpoint split_rows (fuel : nat) (size : nat) (rows : list (list float))
    : list (list (list float)) :=
  match fuel, rows with
  | S fuel', _ :: _ => firstn size rows :: split_rows fuel' size (skipn size rows)
  | _, _ => []
  end.

(** [t.chunk(n)]: pieces of [ceil(rows / n)] rows. *)
Definition chunk (t : RTensor) (n : Z) : list RTensor :=
  let size := Z.to_nat ((len (rt_rows t) + n - 1) / n) in
  map (fun rows => {| rt_dtype := rt_dtype t; rt_device := rt_device t; rt_rows := rows |})
      (split_rows (length (rt_rows t)) size (rt_rows t)).

(** [torch.linspace]: [steps] evenly spaced float32 values from [a] to [b],
    both ends included, filled from the start up to the middle and from the
    end after it; a single step gives the start. *)
Definition linspace (a b : float) (steps : Z) : RTensor :=
  let r := round_to float32 in
  let a := r a in
  let b := r b in
  let delta := r ((b - a) / float_of_Z (steps - 1))%float in
  let halfway := steps / 2 in
  let value (i : Z) : float :=
    if i <? halfway then r (a + r (delta * float_of_Z i))%float
    else r (b - r (delta * float_of_Z (steps - i - 1)))%float in
  {| rt_dtype := float32; rt_device := cpu;
     rt_rows := if steps =? 1 then [[a]]
                else map (fun i => [value (Z.of_nat i)]) (seq 0 (Z.to_nat steps)) |}.

Definition tensor (l : list float) (dev : device) : RTensor :=
  {| rt_dtype := float32; rt_device := dev;
     rt_rows := map (fun x => [round_to float32 x]) l |}.

Definition tensor_pairs (l : list (Z * Z)) (dt : dtype) (dev : device) : RTensor :=
  {| rt_dtype := dt; rt_device := dev;
     rt_rows := map (fun p => [round_to dt (float_of_Z (fst p));
                               round_to dt (float_of_Z (snd p))]) l |}.

Definition expand (t : RTensor) (n : Z) : RTensor :=
  match rt_rows t with
  | [row] => {| rt_dtype := rt_dtype t; rt_device := rt_device t;
                rt_rows := repeat row (Z.to_nat n) |}
  | _ => t
  end.

#[export] Instance torch : Torch := {|
  Tensor := RTensor;
  Generator := RGenerator;
  torch_Generator := fun d => {| g_device := d; g_seed := 67280421310721 |};
  manual_seed := fun g s => {| g_device := g_device g; g_seed := s |};
  torch_randn := randn;
  tensor_to := to_;
  tensor_dtype := rt_dtype;
  tensor_shape0 := fun t => len (rt_rows t);
  torch_cat := cat;
  tensor_chunk := chunk;
  torch_linspace := linspace;
  torch_tensor := tensor;
  torch_tensor_pairs := tensor_pairs;
  tensor_expand := expand;
  tensor_tolist := fun t => concat (rt_rows t);
  tensor_add := binop PrimFloat.add;
  tensor_sub := binop PrimFloat.sub;
  scalar_mul := scalar_op PrimFloat.mul;
  tensor_div_scalar := fun t s => scalar_op (fun s x => x / s)%float s t;
|}.

(** The scheduler as diffusers has it when the timesteps are passed in: the
    shift is applied to the sigmas, and the timesteps are kept as given. *)
#[export] Instance diffusers : Diffusers := {|
  SchedulerState := option RTensor;
  scheduler_init := fun _ => None;
  scheduler_set_timesteps := fun _ _ _ dev _ _ timesteps =>
    Some (to_ (Some dev) (Some float32) timesteps);
  scheduler_timesteps := fun st =>
    match st with
    | Some t => t
    | None => {| rt_dtype := float32; rt_device := cpu; rt_rows := [] |}
    end;
|}.

(** A scheduler that resolves its timesteps from the shifted sigmas,
    [sigma' = mu * sigma / (1 + (mu - 1) * sigma)], a nonlinear remap. *)
Definition shift_sigma (mu sigma : float) : float :=
  (mu * sigma / (1 + (mu - 1) * sigma))%float.

Definition shifting_diffusers : Diffusers := {|
  SchedulerState := option RTensor;
  scheduler_init := fun _ => None;
  scheduler_set_timesteps := fun cfg _ _ dev sigmas mu _ =>
    Some {| rt_dtype := float32; rt_device := dev;
            rt_rows := map_rows
                         (fun s => round_to float32
                                     (shift_sigma mu s * float_of_Z (num_train_timesteps cfg)))
                         (rt_rows sigmas) |};
  scheduler_timesteps := fun st =>
    match st with
    | Some t => t
    | None => {| rt_dtype := float32; rt_device := cpu; rt_rows := [] |}
    end;
|}.

(** The index of the last timestep that is at least [val], up to 1e-6. *)
Definition find_last_index_ge_val (timesteps : list float) (val : float) : Res Z :=
  let idx := len (filter (fun t => (val - 1e-6 <=? t)%float) timesteps) - 1 in
  let? _ := py_assert (0 <=? idx) in
  Ok idx.

(** Modelled from the spec: [clip_timestep_schedule_fractional] belongs to
    [invokeai.backend.flux.sampling_utils], which is not part of the file.
    It clips the linear schedule to the denoising range given by the start
    and end fractions: the clipped schedule runs from [1 - denoising_start]
    down to [1 - denoising_end], both values included as timesteps. *)
Definition clip (timesteps : list float) (denoising_start denoising_end : float)
    : Res (list float) :=
  let? _ := py_assert ((0 <=? denoising_start)%float && (denoising_start <=? 1)%float) in
  let? _ := py_assert ((0 <=? denoising_end)%float && (denoising_end <=? 1)%float) in
  let? _ := py_assert (denoising_start <=? denoising_end)%float in
  let t_start_val := (1 - denoising_start)%float in
  let t_end_val := (1 - denoising_end)%float in
  let? t_start_idx := find_last_index_ge_val timesteps t_start_val in
  let? t_end_idx := find_last_index_ge_val timesteps t_end_val in
  let clipped :=
    firstn (Z.to_nat (t_end_idx + 1 - t_start_idx)) (skipn (Z.to_nat t_start_idx) timesteps) in
  let clipped := t_start_val :: tl clipped in
  if (t_end_val <? last clipped t_start_val)%float
  then Ok (clipped ++ [t_end_val])
  else Ok clipped.

(** Modelled from the spec: [InpaintExtension] belongs to
    [invokeai.backend.sd3.extensions.inpaint_extension], which is not part of
    the file.  The initial latents are noised again for the timestep, by
    linear interpolation toward the noise, and blended with the denoised
    latents, the mask being the weight of the denoised latents. *)
Definition merge (ext : InpaintExtension) (latents : RTensor) (t_prev : float) : RTensor :=
  let noised_init_latents :=
    binop PrimFloat.add (scalar_op PrimFloat.mul t_prev (ext_noise ext))
                        (scalar_op PrimFloat.mul (1 - t_prev)%float (ext_init_latents ext)) in
  let one_minus_mask :=
    to_ None None
        {| rt_dtype := rt_dtype (ext_inpaint_mask ext);
           rt_device := rt_device (ext_inpaint_mask ext);
           rt_rows := map_rows (fun m => (1 - m)%float) (rt_rows (ext_inpaint_mask ext)) |} in
  binop PrimFloat.add (binop PrimFloat.mul latents (ext_inpaint_mask ext))
                      (binop PrimFloat.mul noised_init_latents one_minus_mask).

(** A model object: its classes, its configuration and its forward function. *)
Record RModel : Type := {
  rm_is_cogview4 : bool;
  rm_is_sd3 : bool;
  rm_patch_size : Z;
  rm_in_channels : option Z;
  rm_forward : RTensor -> RTensor -> RTensor -> RTensor -> RTensor;
}.

(** What the invocation context holds for one run. *)
Record Env : Type := {
  env_dtype : dtype;
  env_device : device;
  env_model : RModel;
  env_conditioning : string -> list ConditioningInfo;
  env_tensors : string -> RTensor;
  env_inpaint_mask : option RTensor;
}.

Definition services (env : Env) : Services := {|
  LATENT_SCALE_FACTOR := 8;
  choose_torch_dtype := env_dtype env;
  choose_torch_device := env_device env;
  Model := RModel;
  isinstance_CogView4Transformer2DModel := rm_is_cogview4;
  isinstance_SD3Transformer2DModel := rm_is_sd3;
  config_patch_size := rm_patch_size;
  config_in_channels := rm_in_channels;
  load_by_attrs := fun _ => env_model env;
  model_on_device := fun m => m;
  transformer_forward := rm_forward;
  conditioning_load := env_conditioning env;
  tensors_load := env_tensors env;
  clip_timestep_schedule_fractional := clip;
  _prep_inpaint_mask := fun _ _ => env_inpaint_mask env;
  merge_intermediate_latents_with_init_latents := merge;
  float_pow := fun x y => if (y =? 0.5)%float then PrimFloat.sqrt x else nan;
|}.

End Ref.

(** ** Concrete runs *)

Module Run.

Import Ref.

Definition row_tensor (d : dtype) (rows : list (list float)) : RTensor :=
  {| rt_dtype := d; rt_device := cpu; rt_rows := rows |}.

(** A stub transformer whose prediction for each half of the batch is the
    text embedding of that half. *)
Definition echo_model : RModel := {|
  rm_is_cogview4 := true;
  rm_is_sd3 := true;
  rm_patch_size := 2;
  rm_in_channels := Some 1;
  rm_forward := fun _ _ encoder_hidden_states _ => encoder_hidden_states;
|}.

Definition conditioning_store (neg pos : RTensor) (name : string) : list ConditioningInfo :=
  if String.eqb name "pos" then [CogView4ConditioningInfo pos]
  else if String.eqb name "neg" then [CogView4ConditioningInfo neg]
  else [].

Definition env_of (d : dtype) (neg pos init : RTensor) : Env := {|
  env_dtype := d;
  env_device := cpu;
  env_model := echo_model;
  env_conditioning := conditioning_store neg pos;
  env_tensors := fun _ => init;
  env_inpaint_mask := None;
|}.

Definition neg0 : RTensor := row_tensor float32 [[0.5; 0.25; -1; 2]%float].
Definition pos0 : RTensor := row_tensor float32 [[1.5; -0.75; 3; 0.125]%float].
Definition init0 : RTensor := row_tensor float32 [[4; 3; 2; 1]%float].

Definition env0 : Env := env_of float32 neg0 pos0 init0.

(** A 16x16 image (2x2 latents, one channel), text-to-image. *)
Definition invocation
    (n : Z) (cfg : CfgScale) (start stop : float) (init : option string)
    : CogView4DenoiseInvocation := {|
  positive_conditioning := "pos";
  negative_conditioning := "neg";
  cfg_scale := cfg;
  width := 16;
  height := 16;
  steps := n;
  seed := 42;
  latents := init;
  denoising_start := start;
  denoising_end := stop;
|}.

(** Text-to-image with one and with two steps. *)
Definition one_step : CogView4DenoiseInvocation := invocation 1 (CfgFloat 3.5) 0 1 None.
Definition two_steps : CogView4DenoiseInvocation := invocation 2 (CfgFloat 3.5) 0 1 None.

(** One step with guidance scale 1.0. *)
Definition one_step_unit_scale : CogView4DenoiseInvocation :=
  invocation 1 (CfgFloat 1) 0 1 None.

(** Image-to-image that starts and ends at one half: noising only. *)
Definition renoise_only : CogView4DenoiseInvocation :=
  invocation 2 (CfgFloat 3.5) 0.5 0.5 (Some "init").

(** A denoising start of one half, and one of 1e-6, without initial latents;
    and a range that starts and ends at 1e-6. *)
Definition late_start : CogView4DenoiseInvocation := invocation 1 (CfgFloat 1) 0.5 1 None.
Definition tiny_start : CogView4DenoiseInvocation := invocation 1 (CfgFloat 1) 1e-6 1 None.
Definition tiny_range : CogView4DenoiseInvocation :=
  invocation 1 (CfgFloat 1) 1e-6 1e-6 None.

Definition run (env : Env) (self : CogView4DenoiseInvocation) : M Tensor :=
  @_run_diffusion Ref.torch (services env) Ref.diffusers self.

(** The list the schedule builder returns, for the run's scheduler. *)
Definition builder_schedule (D : Diffusers) (env : Env) (n image_seq_len : Z)
    : Res (list float) :=
  let? prepared :=
    @_prepare_timesteps Ref.torch (services env) D (@_init_scheduler _ D) n image_seq_len in
  Ok (snd prepared).

End Run.

(** ** What a run computes before its first denoising step *)

Section Setup.

Context `{T : Torch} `{TS : !Services}.

(** The checks that [_run_diffusion] makes while it prepares the run (lines
    184-252) pass: the model is a CogView4 transformer with an integer number
    [channels] of latent channels, each conditioning record holds exactly one
    CogView4 embedding ([pos], [neg]), the size divisors are not zero, the
    clipped schedule is [timesteps], and the guidance scales resolve to
    [scales]. *)
Definition setup_passes
    (self : CogView4DenoiseInvocation) (pos neg : Tensor)
    (timesteps scales : list float) (channels : Z) : Prop :=
  isinstance_CogView4Transformer2DModel (load_by_attrs transformer_attrs) = true /\
  conditioning_load (positive_conditioning self) = [CogView4ConditioningInfo pos] /\
  conditioning_load (negative_conditioning self) = [CogView4ConditioningInfo neg] /\
  LATENT_SCALE_FACTOR <> 0 /\
  config_patch_size (load_by_attrs transformer_attrs) <> 0 /\
  clip_timestep_schedule_fractional
    (tensor_tolist (torch_linspace 1 0 (steps self + 1)))
    (denoising_start self) (denoising_end self) = Ok timesteps /\
  _prepare_cfg_scale self (len timesteps - 1) = Ok scales /\
  config_in_channels (load_by_attrs transformer_attrs) = Some channels.

(** The text embeddings of a run: negative first, then positive. *)
Definition prompt_embeds_of (pos neg : Tensor) : Tensor :=
  torch_cat [tensor_to (Some choose_torch_device) (Some choose_torch_dtype) neg;
             tensor_to (Some choose_torch_device) (Some choose_torch_dtype) pos].

(** The seeded noise of a run. *)
Definition seeded_noise (self : CogView4DenoiseInvocation) (channels : Z) : Tensor :=
  tensor_to (Some choose_torch_device) (Some choose_torch_dtype)
    (torch_randn
       [1; channels; height self / LATENT_SCALE_FACTOR; width self / LATENT_SCALE_FACTOR]
       cpu float16 (manual_seed (torch_Generator cpu) (seed self))).

(** The initial latents loaded for image-to-image, on the run's device and dtype. *)
Definition loaded_init_latents (latents_name : string) : Tensor :=
  tensor_to (Some choose_torch_device) (Some choose_torch_dtype) (tensors_load latents_name).

(** The latents the loop starts from, at first timestep [t_0]. *)
Definition initial_latents
    (self : CogView4DenoiseInvocation) (channels : Z) (t_0 : float) : Tensor :=
  match latents self with
  | Some latents_name =>
      tensor_add (scalar_mul t_0 (seeded_noise self channels))
                 (scalar_mul (1.0 - t_0)%float (loaded_init_latents latents_name))
  | None => seeded_noise self channels
  end.

(** The loads of a run, in order. *)
Definition setup_events (self : CogView4DenoiseInvocation) : list Event :=
  [EvLoadModel transformer_attrs;
   EvLoadConditioning (positive_conditioning self);
   EvLoadConditioning (negative_conditioning self)]
  ++ match latents self with
     | Some latents_name => [EvLoadTensor latents_name]
     | None => []
     end.

(** The inpaint extension of a run with latents [x], if any. *)
Definition inpaint_extension_of
    (self : CogView4DenoiseInvocation) (channels : Z) (x : Tensor)
    : option InpaintExtension :=
  match _prep_inpaint_mask self x, latents self with
  | Some mask, Some latents_name =>
      Some {| ext_init_latents := loaded_init_latents latents_name;
              ext_inpaint_mask := mask;
              ext_noise := seeded_noise self channels |}
  | _, _ => None
  end.

End Setup.

(** ** The entry point of the invocation *)

(** What [invoke] uses beyond the run: [tensor.detach()],
    [context.tensors.save(tensor=)], which returns the name given to the
    tensor, and [LatentsOutput.build(latents_name=, latents=, seed=)] of
    [invokeai.app.invocations.primitives]. *)
Class Persistence `{Torch} : Type := {
  tensor_detach : Tensor -> Tensor;
  tensors_save : Tensor -> string;
  LatentsOutput : Type;
  LatentsOutput_build : string -> Tensor -> option Z -> LatentsOutput;
}.

(** The events of [invoke]: those of the diffusion, and the save. *)
Inductive InvokeEvent `{Torch} : Type :=
| EvDiffusion (ev : Event)
| EvSaveTensor (tensor : Tensor).

Section Invoke.

Context `{T : Torch} `{TS : !Services} `{DF : !Diffusers} `{PS : !Persistence}.

(** [invoke] (lines 51-57). *)
Definition invoke (self : CogView4DenoiseInvocation) : list InvokeEvent * Res LatentsOutput :=
  match _run_diffusion self with
  | (tr, Ok latents) =>
      let latents := tensor_to (Some cpu) None (tensor_detach latents) in
      let name := tensors_save latents in
      (map EvDiffusion tr ++ [EvSaveTensor latents],
       Ok (LatentsOutput_build name latents None))
  | (tr, Raise e) => (map EvDiffusion tr, Raise e)
  end.

(** The tensors saved, in order. *)
Fixpoint saved_tensors (tr : list InvokeEvent) : list Tensor :=
  match tr with
  | [] => []
  | EvSaveTensor t :: tr' => t :: saved_tensors tr'
  | EvDiffusion _ :: tr' => saved_tensors tr'
  end.

(** The events of the diffusion within those of [invoke]. *)
Fixpoint diffusion_events (tr : list InvokeEvent) : list Event :=
  match tr with
  | [] => []
  | EvDiffusion ev :: tr' => ev :: diffusion_events tr'
  | EvSaveTensor _ :: tr' => diffusion_events tr'
  end.

End Invoke.

(** ** Further runs on the reference implementation *)

Module Edge.

Import Ref.

(** A model object of another class than the CogView4 transformer. *)
Definition other_model : RModel := {|
  rm_is_cogview4 := false;
  rm_is_sd3 := true;
  rm_patch_size := 2;
  rm_in_channels := Some 1;
  rm_forward := fun _ _ encoder_hidden_states _ => encoder_hidden_states;
|}.

(** A CogView4 transformer that is not an SD3 transformer. *)
Definition cogview4_only_model : RModel := {|
  rm_is_cogview4 := true;
  rm_is_sd3 := false;
  rm_patch_size := 2;
  rm_in_channels := Some 1;
  rm_forward := fun _ _ encoder_hidden_states _ => encoder_hidden_states;
|}.

Definition env_with (model : RModel) (mask : option RTensor) : Env := {|
  env_dtype := float32;
  env_device := cpu;
  env_model := model;
  env_conditioning := Run.conditioning_store Run.neg0 Run.pos0;
  env_tensors := fun _ => Run.init0;
  env_inpaint_mask := mask;
|}.

Definition mask0 : RTensor := Run.row_tensor float32 [[1; 0; 0.5; 1]%float].

(** A list of guidance scales of the wrong length for two steps. *)
Definition three_scales : CogView4DenoiseInvocation :=
  Run.invocation 2 (CfgList [1; 2; 3]%float) 0 1 None.

(** Image-to-image from one half of the schedule, with two steps. *)
Definition img2img : CogView4DenoiseInvocation :=
  Run.invocation 2 (CfgFloat 3.5) 0.5 1 (Some "init").

(** A conditioning name that the store does not hold. *)
Definition unknown_conditioning : CogView4DenoiseInvocation := {|
  positive_conditioning := "missing";
  negative_conditioning := "neg";
  cfg_scale := CfgFloat 3.5;
  width := 16;
  height := 16;
  steps := 2;
  seed := 42;
  latents := None;
  denoising_start := 0;
  denoising_end := 1;
|}.

(** The persistence of a run: tensors keep their values when detached, and
    are saved under one name. *)
#[export] Instance persistence : Persistence := {|
  tensor_detach := fun t => t;
  tensors_save := fun _ => "saved";
  LatentsOutput := (string * RTensor * option Z)%type;
  LatentsOutput_build := fun name t seed => (name, t, seed);
|}.

End Edge.

(** * Properties *)

(** ** Lists and the monad *)

Lemma len_nonneg {A : Type} (l : list A) : 0 <= len l.
Proof. unfold len. lia. Qed.

Lemma len_cons {A : Type} (a : A) (l : list A) : len (a :: l) = len l + 1.
Proof. unfold len. simpl length. lia. Qed.

Lemma py_list_mul_singleton {A : Type} (a : A) (n : Z) :
  py_list_mul [a] n = repeat a (Z.to_nat n).
Proof.
  unfold py_list_mul. induction (Z.to_nat n) as [|k IH]; simpl.
  - reflexivity.
  - now rewrite IH.
Qed.

Lemma py_index_zero {A : Type} (a : A) (l : list A) : py_index (a :: l) 0 = Ok a.
Proof. reflexivity. Qed.

Lemma zip_strict_removelast_cons {A : Type} (l : list A) (a : A) :
  exists pairs, zip_strict (removelast (a :: l)) l = Ok pairs /\
                length pairs = length l.
Proof.
  revert a. induction l as [|b l IH]; intros a.
  - exists []. split; reflexivity.
  - destruct (IH b) as [pairs [Hz Hl]].
    exists ((a, b) :: pairs). split.
    + change (removelast (a :: b :: l)) with (a :: removelast (b :: l)).
      cbn [zip_strict]. rewrite Hz. reflexivity.
    + simpl. now rewrite Hl.
Qed.

Section MonadFacts.

Context `{T : Torch}.

Lemma bind_ok {A B : Type} (tr : list Event) (a : A) (k : A -> M B) :
  bind (tr, Ok a) k = (tr ++ fst (k a), snd (k a)).
Proof. unfold bind. destruct (k a). reflexivity. Qed.

Lemma bind_lift_ok {A B : Type} (a : A) (k : A -> M B) :
  bind (lift (Ok a)) k = k a.
Proof. unfold lift. rewrite bind_ok. simpl. now destruct (k a). Qed.

Lemma bind_ret {A B : Type} (a : A) (k : A -> M B) : bind (ret a) k = k a.
Proof. apply bind_lift_ok. Qed.

Lemma bind_emit {B : Type} (ev : Event) (k : unit -> M B) :
  bind (emit ev) k = (ev :: fst (k tt), snd (k tt)).
Proof. unfold emit. rewrite bind_ok. reflexivity. Qed.

Lemma snapshots_app (tr1 tr2 : list Event) :
  snapshots (tr1 ++ tr2) = snapshots tr1 ++ snapshots tr2.
Proof.
  induction tr1 as [|ev tr1 IH]; simpl; [reflexivity|].
  destruct ev; simpl; now rewrite IH.
Qed.

Lemma transformer_calls_app (tr1 tr2 : list Event) :
  transformer_calls (tr1 ++ tr2) = transformer_calls tr1 ++ transformer_calls tr2.
Proof.
  induction tr1 as [|ev tr1 IH]; simpl; [reflexivity|].
  destruct ev; simpl; now rewrite IH.
Qed.

End MonadFacts.

(** ** The guidance scale resolver *)

Lemma repeat_all_equal {A : Type} (a : A) (n : nat) : Forall (fun x => x = a) (repeat a n).
Proof. induction n as [|n IH]; simpl; constructor; auto. Qed.

(** C6: for a step count [n], a scalar guidance scale [s] is resolved to a
    list of length [n] whose elements all equal [s]; a list of length [n] is
    returned unchanged; a list of any other length raises [AssertionError],
    and nothing is returned. *)
Theorem prepare_cfg_scale_resolves (self : CogView4DenoiseInvocation) (n : Z) :
  0 <= n ->
  (forall s, cfg_scale self = CfgFloat s ->
     exists l, _prepare_cfg_scale self n = Ok l /\ len l = n /\ Forall (fun x => x = s) l) /\
  (forall l, cfg_scale self = CfgList l -> len l = n ->
     _prepare_cfg_scale self n = Ok l) /\
  (forall l, cfg_scale self = CfgList l -> len l <> n ->
     _prepare_cfg_scale self n = Raise AssertionError).
Proof.
  intros Hn. unfold _prepare_cfg_scale. repeat split.
  - intros s ->. exists (repeat s (Z.to_nat n)).
    rewrite py_list_mul_singleton. repeat split.
    + unfold len. rewrite repeat_length. lia.
    + apply repeat_all_equal.
  - intros l -> Hl. apply Z.eqb_eq in Hl. now rewrite Hl.
  - intros l -> Hl. apply Z.eqb_neq in Hl. now rewrite Hl.
Qed.

Lemma prepare_cfg_scale_resolves_witness :
  0 <= 3 /\
  (exists l, _prepare_cfg_scale (Run.invocation 3 (CfgFloat 3.5) 0 1 None) 3 = Ok l /\
             len l = 3 /\ Forall (fun x => x = 3.5%float) l).
Proof.
  split; [lia|].
  apply (prepare_cfg_scale_resolves (Run.invocation 3 (CfgFloat 3.5) 0 1 None) 3); [lia|].
  reflexivity.
Defined.

Section Properties.

Context `{T : Torch} `{TS : !Services} `{DF : !Diffusers}.

(** ** The noise initializer *)

(** C7: the noise is a function of the shape and the seed alone.  It is
    drawn on the cpu in float16 from a generator seeded with [seed], and this
    pre-cast tensor is the same for every target dtype and device; the result
    is its cast to the target. *)
Theorem get_noise_reference (batch_size channels height width seed : Z) :
  LATENT_SCALE_FACTOR <> 0 ->
  let reference :=
    torch_randn
      [batch_size; channels; height / LATENT_SCALE_FACTOR; width / LATENT_SCALE_FACTOR]
      cpu float16 (manual_seed (torch_Generator cpu) seed) in
  forall (dt : dtype) (dev : device),
    _get_noise batch_size channels height width dt dev seed
    = Ok (tensor_to (Some dev) (Some dt) reference).
Proof.
  intros Hlsf reference dt dev. unfold _get_noise, py_floordiv.
  apply Z.eqb_neq in Hlsf. rewrite Hlsf. reflexivity.
Qed.

End Properties.

Lemma get_noise_reference_witness :
  @LATENT_SCALE_FACTOR _ (Ref.services Run.env0) <> 0 /\
  forall dt dev,
    @_get_noise _ (Ref.services Run.env0) 1 1 16 16 dt dev 42
    = Ok (Ref.to_ (Some dev) (Some dt)
            (Ref.randn [1; 1; 2; 2] cpu float16 {| Ref.g_device := cpu; Ref.g_seed := 42 |})).
Proof.
  split; [discriminate|].
  apply (@get_noise_reference _ (Ref.services Run.env0) 1 1 16 16 42). discriminate.
Defined.

(** ** The denoising loop *)

Section LoopFacts.

Context `{T : Torch} `{TS : !Services}.

Variables (transformer : Model) (dev : device) (prompt_embeds : Tensor)
          (scales : list float) (total : Z) (ext : option InpaintExtension).

(** An iteration of the loop stops where line 308 names
    [pooled_prompt_embeds]: it performs no event. *)
Lemma denoise_loop_cons
    (guided : bool) (s : Z * (float * float)) (rest : list (Z * (float * float)))
    (latents : Tensor) :
  denoise_loop guided transformer dev prompt_embeds scales total ext (s :: rest) latents
  = ([], Raise (NameError "pooled_prompt_embeds")).
Proof. destruct s as [idx [t_curr t_prev]]. reflexivity. Qed.



End LoopFacts.

Section RunFacts.

Context `{T : Torch} `{TS : !Services} `{DF : !Diffusers}.

Lemma load_text_conditioning_ok (name : string) (glm : Tensor) (dt : dtype) (dv : device) :
  conditioning_load name = [CogView4ConditioningInfo glm] ->
  _load_text_conditioning name dt dv
  = ([EvLoadConditioning name], Ok (tensor_to (Some dv) (Some dt) glm)).
Proof.
  intros Hload. unfold _load_text_conditioning.
  rewrite bind_emit, Hload. reflexivity.
Qed.

Lemma get_noise_ok (self : CogView4DenoiseInvocation) (channels : Z) :
  LATENT_SCALE_FACTOR <> 0 ->
  _get_noise 1 channels (height self) (width self)
    choose_torch_dtype choose_torch_device (seed self)
  = Ok (seeded_noise self channels).
Proof.
  intros Hlsf. unfold _get_noise, py_floordiv, seeded_noise.
  apply Z.eqb_neq in Hlsf. rewrite Hlsf. reflexivity.
Qed.

(** Runs the preparation of [_run_diffusion] up to the seeded noise, with
    the facts of [setup_passes] at hand. *)
Ltac run_setup Hsetup :=
  let Hcog := fresh "Hcog" in
  let Hpos := fresh "Hpos" in
  let Hneg := fresh "Hneg" in
  let Hlsf := fresh "Hlsf" in
  let Hps := fresh "Hps" in
  let Hclip := fresh "Hclip" in
  let Hcfg := fresh "Hcfg" in
  let Hch := fresh "Hch" in
  let Hlsf' := fresh "Hlsf" in
  let Hps' := fresh "Hps" in
  destruct Hsetup as (Hcog & Hpos & Hneg & Hlsf & Hps & Hclip & Hcfg & Hch);
  unfold _run_diffusion;
  rewrite bind_emit; cbn beta; rewrite Hcog; cbn [py_assert]; rewrite bind_lift_ok;
  rewrite (load_text_conditioning_ok _ _ _ _ Hpos), bind_ok;
  rewrite (load_text_conditioning_ok _ _ _ _ Hneg), bind_ok;
  unfold py_floordiv;
  pose proof (proj2 (Z.eqb_neq _ _) Hlsf) as Hlsf';
  assert (Hps' : (config_patch_size (load_by_attrs transformer_attrs) ^ 2 =? 0) = false)
    by (apply Z.eqb_neq; apply Z.pow_nonzero; [exact Hps | lia]);
  rewrite Hlsf', !bind_lift_ok, Hps', bind_lift_ok;
  unfold _prepare_timesteps, _calculate_timestep_shift, py_truediv;
  cbn [config base_image_seq_len scheduler_defaults _init_scheduler Z.eqb res_bind];
  rewrite bind_lift_ok, Hclip, bind_lift_ok, Hcfg, bind_lift_ok;
  rewrite Hch;
  try rewrite (get_noise_ok _ _ Hlsf);
  cbn [fst snd].

Lemma load_text_conditioning_cases (name : string) (dt : dtype) (dv : device) :
  (exists glm, conditioning_load name = [CogView4ConditioningInfo glm]) \/
  (exists e, _load_text_conditioning name dt dv = ([EvLoadConditioning name], Raise e)).
Proof.
  unfold _load_text_conditioning. rewrite bind_emit.
  destruct (conditioning_load name) as [|c [|c' l]].
  - right. eexists. reflexivity.
  - destruct c.
    + left. eexists. reflexivity.
    + right. eexists. reflexivity.
  - right. exists AssertionError.
    assert (Hlen : (len (c :: c' :: l) =? 1) = false).
    { apply Z.eqb_neq. rewrite !len_cons. pose proof (len_nonneg l). lia. }
    rewrite Hlen. reflexivity.
Qed.

Ltac stops_quietly :=
  left; cbn [py_assert lift raise bind fst snd is_ok snapshots transformer_calls app];
  auto.

(** A run either stops with an exception before any snapshot is emitted and
    any denoising step is taken, or passes the checks of its preparation. *)
Lemma run_diffusion_cases (self : CogView4DenoiseInvocation) :
  (is_ok (snd (_run_diffusion self)) = false /\
   snapshots (fst (_run_diffusion self)) = [] /\
   transformer_calls (fst (_run_diffusion self)) = [])
  \/ (exists pos neg timesteps scales channels,
         setup_passes self pos neg timesteps scales channels).
Proof.
  unfold _run_diffusion. rewrite bind_emit. cbn beta.
  destruct (isinstance_CogView4Transformer2DModel (load_by_attrs transformer_attrs))
    eqn:Hcog; [|stops_quietly].
  cbn [py_assert]. rewrite bind_lift_ok.
  destruct (load_text_conditioning_cases (positive_conditioning self)
              choose_torch_dtype choose_torch_device) as [[pos Hpos]|[e He]];
    [|rewrite He; stops_quietly].
  rewrite (load_text_conditioning_ok _ _ _ _ Hpos), bind_ok.
  destruct (load_text_conditioning_cases (negative_conditioning self)
              choose_torch_dtype choose_torch_device) as [[neg Hneg]|[e He]];
    [|rewrite He; stops_quietly].
  rewrite (load_text_conditioning_ok _ _ _ _ Hneg), bind_ok.
  unfold py_floordiv.
  destruct (LATENT_SCALE_FACTOR =? 0) eqn:Hlsf; [stops_quietly|].
  rewrite !bind_lift_ok.
  destruct (config_patch_size (load_by_attrs transformer_attrs) ^ 2 =? 0) eqn:Hps;
    [stops_quietly|].
  rewrite bind_lift_ok.
  unfold _prepare_timesteps, _calculate_timestep_shift, py_truediv.
  cbn [config base_image_seq_len scheduler_defaults _init_scheduler Z.eqb res_bind].
  rewrite bind_lift_ok.
  destruct (clip_timestep_schedule_fractional
              (tensor_tolist (torch_linspace 1 0 (steps self + 1)))
              (denoising_start self) (denoising_end self)) as [timesteps|e] eqn:Hclip;
    [|stops_quietly].
  rewrite bind_lift_ok.
  destruct (_prepare_cfg_scale self (len timesteps - 1)) as [scales|e] eqn:Hcfg;
    [|stops_quietly].
  rewrite bind_lift_ok.
  destruct (config_in_channels (load_by_attrs transformer_attrs)) as [channels|] eqn:Hch.
  - right. exists pos, neg, timesteps, scales, channels.
    apply Z.eqb_neq in Hlsf. apply Z.eqb_neq in Hps.
    repeat split; auto.
    intros Hzero. apply Hps. rewrite Hzero. reflexivity.
  - destruct (latents self) as [latents_name|].
    + rewrite bind_emit. cbn [ret fst snd]. rewrite bind_ok. stops_quietly.
    + rewrite bind_ret. stops_quietly.
Qed.

(** The run up to the first snapshot, and the loop it then enters. *)
Lemma run_diffusion_enters_loop
    (self : CogView4DenoiseInvocation) (pos neg : Tensor)
    (t0 t1 : float) (rest scales : list float) (channels k : Z)
    (pairs : list (float * float)) :
  setup_passes self pos neg (t0 :: t1 :: rest) scales channels ->
  (latents self = None -> (1e-5 <? denoising_start self)%float = false) ->
  (latents self = None ->
   _prep_inpaint_mask self (initial_latents self channels t0) = None) ->
  py_int t0 = Ok k ->
  isinstance_SD3Transformer2DModel (model_on_device (load_by_attrs transformer_attrs))
  = true ->
  zip_strict (removelast (t0 :: t1 :: rest)) (t1 :: rest) = Ok pairs ->
  let x0 := initial_latents self channels t0 in
  let total := len (t0 :: t1 :: rest) - 1 in
  let loop :=
    denoise_loop true (model_on_device (load_by_attrs transformer_attrs))
      choose_torch_device (prompt_embeds_of pos neg) scales total
      (inpaint_extension_of self channels x0) (enumerate pairs) x0 in
  _run_diffusion self
  = (setup_events self
     ++ EvStepCallback
          {| step := 0; order := 1; total_steps := total; timestep := k;
             st_latents := x0 |} "StableDiffusion3"
     :: fst loop,
     snd loop).
Proof.
  intros Hsetup Hstart Hmask Hint Hsd3 Hzip x0 total loop.
  assert (Hlen : (len (t0 :: t1 :: rest) <=? 1) = false).
  { apply Z.leb_gt. rewrite !len_cons. pose proof (len_nonneg rest). lia. }
  run_setup Hsetup.
  subst loop x0. unfold initial_latents, inpaint_extension_of, setup_events in *.
  destruct (latents self) as [latents_name|].
  - rewrite bind_emit. cbn [ret fst snd]. rewrite bind_ok. cbn [fst snd].
    rewrite bind_ret, get_noise_ok, bind_lift_ok by assumption.
    rewrite py_index_zero, bind_lift_ok, bind_ret, Hlen.
    fold (loaded_init_latents latents_name).
    destruct (_prep_inpaint_mask self
                (tensor_add (scalar_mul t0 (seeded_noise self channels))
                   (scalar_mul (1 - t0) (loaded_init_latents latents_name))));
      rewrite bind_ret, bind_lift_ok, Hint, bind_lift_ok, bind_emit;
      cbn beta; rewrite Hsd3; cbn [py_assert]; rewrite bind_lift_ok;
      cbn [tl]; rewrite Hzip, bind_lift_ok; reflexivity.
  - rewrite !bind_ret, get_noise_ok, bind_lift_ok by assumption.
    rewrite (Hstart eq_refl), bind_ret, Hlen.
    rewrite (Hmask eq_refl).
    rewrite bind_ret, py_index_zero, bind_lift_ok, Hint, bind_lift_ok, bind_emit.
    cbn beta. rewrite Hsd3. cbn [py_assert]. rewrite bind_lift_ok.
    cbn [tl]. rewrite Hzip, bind_lift_ok. reflexivity.
Qed.

Lemma setup_events_quiet (self : CogView4DenoiseInvocation) :
  snapshots (setup_events self) = [] /\ transformer_calls (setup_events self) = [].
Proof. unfold setup_events. destruct (latents self); split; reflexivity. Qed.

(** The short-circuit of lines 265-268: with a clipped schedule of one
    timestep the run returns the initial latents after its loads. *)
Lemma run_diffusion_short_circuit
    (self : CogView4DenoiseInvocation) (pos neg : Tensor)
    (t0 : float) (scales : list float) (channels : Z) :
  setup_passes self pos neg [t0] scales channels ->
  (latents self = None -> (1e-5 <? denoising_start self)%float = false) ->
  _run_diffusion self = (setup_events self, Ok (initial_latents self channels t0)).
Proof.
  intros Hsetup Hstart. run_setup Hsetup. unfold initial_latents, setup_events in *.
  destruct (latents self) as [latents_name|].
  - rewrite bind_emit. cbn [ret fst snd]. rewrite bind_ok. cbn [fst snd].
    rewrite bind_ret, get_noise_ok, bind_lift_ok by assumption.
    rewrite py_index_zero, bind_lift_ok, bind_ret. reflexivity.
  - rewrite !bind_ret, get_noise_ok, bind_lift_ok by assumption.
    rewrite (Hstart eq_refl), bind_ret. reflexivity.
Qed.

(** The run up to the first iteration of the loop: after the snapshot of
    step 0 the run stops, at the class check of line 294 or, when the check
    passes, at the name of line 308. *)
Lemma run_diffusion_first_iteration
    (self : CogView4DenoiseInvocation) (pos neg : Tensor)
    (t0 t1 : float) (rest scales : list float) (channels k : Z) :
  setup_passes self pos neg (t0 :: t1 :: rest) scales channels ->
  (latents self = None -> (1e-5 <? denoising_start self)%float = false) ->
  (latents self = None ->
   _prep_inpaint_mask self (initial_latents self channels t0) = None) ->
  py_int t0 = Ok k ->
  _run_diffusion self
  = (setup_events self
     ++ [EvStepCallback
           {| step := 0; order := 1; total_steps := len (t0 :: t1 :: rest) - 1;
              timestep := k; st_latents := initial_latents self channels t0 |}
           "StableDiffusion3"],
     Raise (if isinstance_SD3Transformer2DModel
                 (model_on_device (load_by_attrs transformer_attrs))
            then NameError "pooled_prompt_embeds"
            else AssertionError)).
Proof.
  intros Hsetup Hstart Hmask Hint.
  destruct (isinstance_SD3Transformer2DModel
              (model_on_device (load_by_attrs transformer_attrs))) eqn:Hsd3.
  - destruct (zip_strict_removelast_cons (t1 :: rest) t0) as [pairs [Hzip Hlen]].
    rewrite (run_diffusion_enters_loop self pos neg t0 t1 rest scales channels k pairs
               Hsetup Hstart Hmask Hint Hsd3 Hzip).
    destruct pairs as [|p pairs]; [discriminate|].
    unfold enumerate. cbn [enumerate_from]. rewrite denoise_loop_cons. reflexivity.
  - assert (Hlen : (len (t0 :: t1 :: rest) <=? 1) = false).
    { apply Z.leb_gt. rewrite !len_cons. pose proof (len_nonneg rest). lia. }
    run_setup Hsetup. unfold initial_latents, setup_events in *.
    destruct (latents self) as [latents_name|].
    + rewrite bind_emit. cbn [ret fst snd]. rewrite bind_ok. cbn [fst snd].
      rewrite bind_ret, get_noise_ok, bind_lift_ok by assumption.
      rewrite py_index_zero, bind_lift_ok, bind_ret, Hlen.
      destruct (_prep_inpaint_mask self _);
        rewrite bind_ret, bind_lift_ok, Hint, bind_lift_ok, bind_emit;
        cbn beta; rewrite Hsd3; reflexivity.
    + rewrite !bind_ret, get_noise_ok, bind_lift_ok by assumption.
      rewrite (Hstart eq_refl), bind_ret, Hlen, (Hmask eq_refl).
      rewrite bind_ret, py_index_zero, bind_lift_ok, Hint, bind_lift_ok, bind_emit.
      cbn beta. rewrite Hsd3. reflexivity.
Qed.



(** After a preparation that passes, a run without initial latents whose
    denoising start exceeds 1e-5 raises the [ValueError] of line 262. *)
Lemma rejected_after_setup
    (self : CogView4DenoiseInvocation) (pos neg : Tensor)
    (timesteps scales : list float) (channels : Z) :
  setup_passes self pos neg timesteps scales channels ->
  latents self = None ->
  (1e-5 <? denoising_start self)%float = true ->
  _run_diffusion self
  = (setup_events self,
     Raise (ValueError
              "denoising_start should be 0 when initial latents are not provided.")).
Proof.
  intros Hsetup Hlat Hstart. run_setup Hsetup. unfold setup_events.
  rewrite Hlat, !bind_ret, get_noise_ok, bind_lift_ok by assumption.
  rewrite Hstart. reflexivity.
Qed.

(** The scheduler's resolved timesteps never reach the loop: a run is the
    same whatever the scheduler. *)
Lemma run_diffusion_ignores_scheduler (D1 D2 : Diffusers) (self : CogView4DenoiseInvocation) :
  @_run_diffusion T TS D1 self = @_run_diffusion T TS D2 self.
Proof. reflexivity. Qed.

(** ** The denoising run *)

Variables (self : CogView4DenoiseInvocation) (pos neg : Tensor)
          (scales : list float) (channels : Z).

(** C5: the loop starts from [t_0 * noise + (1 - t_0) * init_latents] when
    initial latents are provided and from the seeded noise when they are
    not ([initial_latents]).  When the clipped schedule has the single
    timestep [t_0], the run returns these latents at once, after its loads
    only: no snapshot is emitted and the transformer is never invoked.  When
    the schedule goes on, these latents are those of the snapshot of step 0,
    the first event of the run after its loads. *)
Theorem initial_latents_and_short_circuit (t0 : float) (rest : list float) :
  setup_passes self pos neg (t0 :: rest) scales channels ->
  (latents self = None -> (1e-5 <? denoising_start self)%float = false) ->
  let x0 := initial_latents self channels t0 in
  (rest = [] ->
   _run_diffusion self = (setup_events self, Ok x0) /\
   snapshots (setup_events self) = [] /\
   transformer_calls (setup_events self) = []) /\
  (forall k,
     rest <> [] ->
     py_int t0 = Ok k ->
     (latents self = None -> _prep_inpaint_mask self x0 = None) ->
     exists tr r,
       _run_diffusion self
       = (setup_events self
          ++ EvStepCallback
               {| step := 0; order := 1; total_steps := len (t0 :: rest) - 1;
                  timestep := k; st_latents := x0 |} "StableDiffusion3"
          :: tr,
          r)).
Proof.
  intros Hsetup Hstart x0. split.
  - intros ->. split.
    + exact (run_diffusion_short_circuit self pos neg t0 scales channels Hsetup Hstart).
    + apply setup_events_quiet.
  - intros k Hrest Hint Hmask.
    destruct rest as [|t1 rest']; [contradiction|].
    rewrite (run_diffusion_first_iteration self pos neg t0 t1 rest' scales channels k
               Hsetup Hstart Hmask Hint).
    eexists. eexists. reflexivity.
Qed.

(** C4, on the code: with a schedule of two timesteps [t_0] and 0
    (steps = 1), no initial latents and no inpaint mask, the run does not
    return [noise + (0 - t_0) * pred].  It emits the snapshot of step 0, with
    the seeded noise, and raises [NameError] in its only iteration, at line
    308, before the transformer is invoked: no Euler step is taken. *)
Theorem single_step_stops_at_unbound_name (t0 : float) (k : Z) :
  setup_passes self pos neg [t0; 0%float] scales channels ->
  latents self = None ->
  (1e-5 <? denoising_start self)%float = false ->
  _prep_inpaint_mask self (seeded_noise self channels) = None ->
  isinstance_SD3Transformer2DModel (model_on_device (load_by_attrs transformer_attrs))
  = true ->
  py_int t0 = Ok k ->
  _run_diffusion self
  = (setup_events self
     ++ [EvStepCallback
           {| step := 0; order := 1; total_steps := 1; timestep := k;
              st_latents := seeded_noise self channels |} "StableDiffusion3"],
     Raise (NameError "pooled_prompt_embeds")) /\
  transformer_calls (fst (_run_diffusion self)) = [].
Proof.
  intros Hsetup Hlat Hstart Hmask Hsd3 Hint.
  assert (Hx0 : initial_latents self channels t0 = seeded_noise self channels).
  { unfold initial_latents. now rewrite Hlat. }
  assert (Hrun := run_diffusion_first_iteration self pos neg t0 0%float [] scales channels k
                    Hsetup (fun _ => Hstart)).
  rewrite Hx0, Hsd3 in Hrun. specialize (Hrun (fun _ => Hmask) Hint).
  rewrite Hrun. split; [reflexivity|].
  cbn [fst]. rewrite transformer_calls_app, (proj2 (setup_events_quiet self)).
  reflexivity.
Qed.

(** C10 (amended): in a run whose clipped schedule has at least two
    timesteps, one snapshot with step index 0, the total step count,
    timestep [int(timesteps[0])] and the initial latents is emitted after the
    loads, which hold no snapshot and no transformer invocation: it is the
    first snapshot of the run, and comes before any denoising step.  A run
    whose clipped schedule has a single timestep returns without emitting a
    snapshot. *)
Theorem progress_snapshots (t0 : float) (rest : list float) :
  let timesteps := t0 :: rest in
  let total := len timesteps - 1 in
  let x0 := initial_latents self channels t0 in
  setup_passes self pos neg timesteps scales channels ->
  (latents self = None -> (1e-5 <? denoising_start self)%float = false) ->
  (rest = [] ->
   is_ok (snd (_run_diffusion self)) = true /\
   snapshots (fst (_run_diffusion self)) = []) /\
  (forall k,
     rest <> [] ->
     py_int t0 = Ok k ->
     (latents self = None -> _prep_inpaint_mask self x0 = None) ->
     exists more tr r,
       snapshots (fst (_run_diffusion self))
       = {| step := 0; order := 1; total_steps := total; timestep := k;
            st_latents := x0 |} :: more /\
       _run_diffusion self
       = (setup_events self
          ++ EvStepCallback
               {| step := 0; order := 1; total_steps := total; timestep := k;
                  st_latents := x0 |} "StableDiffusion3"
          :: tr,
          r) /\
       snapshots (setup_events self) = [] /\
       transformer_calls (setup_events self) = []).
Proof.
  intros timesteps total x0 Hsetup Hstart.
  destruct (setup_events_quiet self) as [Hq1 Hq2]. split.
  - intros Hrest. subst timesteps. rewrite Hrest in Hsetup.
    rewrite (run_diffusion_short_circuit self pos neg t0 scales channels Hsetup Hstart).
    split; [reflexivity | exact Hq1].
  - intros k Hrest Hint Hmask.
    destruct rest as [|t1 rest']; [contradiction|].
    pose proof (run_diffusion_first_iteration self pos neg t0 t1 rest' scales channels k
                  Hsetup Hstart Hmask Hint) as Hrun.
    fold timesteps total x0 in Hrun.
    exists [], [].
    eexists. rewrite Hrun. cbn [fst]. rewrite snapshots_app, Hq1.
    repeat split; try reflexivity; assumption.
Qed.

(** C8 (amended): a denoising start greater than 1e-5 without initial
    latents is an error reported before the loop is entered: the run raises,
    no snapshot is emitted and the transformer is never invoked; and when
    the checks of the preparation pass, the exception is the [ValueError]
    that names the denoising start. *)
Theorem denoising_start_without_latents_rejected :
  latents self = None ->
  (1e-5 <? denoising_start self)%float = true ->
  (is_ok (snd (_run_diffusion self)) = false /\
   snapshots (fst (_run_diffusion self)) = [] /\
   transformer_calls (fst (_run_diffusion self)) = [])
  /\ (forall timesteps,
        setup_passes self pos neg timesteps scales channels ->
        _run_diffusion self
        = (setup_events self,
           Raise (ValueError
                    "denoising_start should be 0 when initial latents are not provided."))).
Proof.
  intros Hlat Hstart. split.
  - destruct (run_diffusion_cases self)
      as [Hquiet | (pos' & neg' & ts & scales' & channels' & Hsetup)];
      [exact Hquiet|].
    rewrite (rejected_after_setup self pos' neg' ts scales' channels' Hsetup Hlat Hstart).
    unfold setup_events. rewrite Hlat. repeat split.
  - intros timesteps Hsetup.
    exact (rejected_after_setup self pos neg timesteps scales channels Hsetup Hlat Hstart).
Qed.


End RunFacts.

(** ** Runs on the reference implementation *)

Lemma setup_passes_env0 (self : CogView4DenoiseInvocation) (env : Ref.Env)
    (neg pos : Ref.RTensor) (timesteps scales : list float) :
  positive_conditioning self = "pos" ->
  negative_conditioning self = "neg" ->
  Ref.env_model env = Run.echo_model ->
  Ref.env_conditioning env = Run.conditioning_store neg pos ->
  Ref.clip (concat (Ref.rt_rows (Ref.linspace 1 0 (steps self + 1))))
           (denoising_start self) (denoising_end self) = Ok timesteps ->
  _prepare_cfg_scale self (len timesteps - 1) = Ok scales ->
  @setup_passes Ref.torch (Ref.services env) self pos neg timesteps scales 1.
Proof.
  intros Hp Hn Hm Hc Hclip Hcfg. unfold setup_passes.
  cbn [Ref.services Ref.torch load_by_attrs conditioning_load LATENT_SCALE_FACTOR
       isinstance_CogView4Transformer2DModel config_patch_size config_in_channels
       clip_timestep_schedule_fractional tensor_tolist torch_linspace].
  rewrite Hp, Hn, Hm, Hc. repeat split; try assumption; discriminate.
Qed.

Lemma single_step_stops_at_unbound_name_witness :
  Run.run Run.env0 Run.one_step
  = ([EvLoadModel transformer_attrs; EvLoadConditioning "pos"; EvLoadConditioning "neg";
      EvStepCallback
        {| step := 0; order := 1; total_steps := 1; timestep := 1;
           st_latents := @seeded_noise Ref.torch (Ref.services Run.env0) Run.one_step 1 |}
        "StableDiffusion3"],
     Raise (NameError "pooled_prompt_embeds")).
Proof.
  destruct (@single_step_stops_at_unbound_name Ref.torch (Ref.services Run.env0)
              Ref.diffusers Run.one_step Run.pos0 Run.neg0 [3.5%float] 1 1%float 1)
    as [Hrun _].
  - apply setup_passes_env0; reflexivity.
  - reflexivity.
  - reflexivity.
  - reflexivity.
  - reflexivity.
  - reflexivity.
  - exact Hrun.
Defined.

Lemma initial_latents_and_short_circuit_witness :
  Run.run Run.env0 Run.renoise_only
  = ([EvLoadModel transformer_attrs; EvLoadConditioning "pos"; EvLoadConditioning "neg";
      EvLoadTensor "init"],
     Ok (Ref.binop PrimFloat.add
           (Ref.scalar_op PrimFloat.mul 0.5
              (@seeded_noise Ref.torch (Ref.services Run.env0) Run.renoise_only 1))
           (Ref.scalar_op PrimFloat.mul (1 - 0.5) Run.init0))).
Proof.
  destruct (@initial_latents_and_short_circuit Ref.torch (Ref.services Run.env0)
              Ref.diffusers Run.renoise_only Run.pos0 Run.neg0 [] 1 0.5%float [])
    as [Hshort _].
  - apply setup_passes_env0; reflexivity.
  - discriminate.
  - exact (proj1 (Hshort eq_refl)).
Defined.

Lemma denoising_start_without_latents_rejected_witness :
  Run.run Run.env0 Run.late_start
  = ([EvLoadModel transformer_attrs; EvLoadConditioning "pos"; EvLoadConditioning "neg"],
     Raise (ValueError
              "denoising_start should be 0 when initial latents are not provided.")).
Proof.
  destruct (@denoising_start_without_latents_rejected Ref.torch (Ref.services Run.env0)
              Ref.diffusers Run.late_start Run.pos0 Run.neg0 [1%float] 1)
    as [_ Hraise].
  - reflexivity.
  - reflexivity.
  - apply (Hraise [0.5; 0]%float). apply setup_passes_env0; reflexivity.
Defined.

Lemma progress_snapshots_witness :
  exists more,
    snapshots (fst (Run.run Run.env0 Run.two_steps))
    = {| step := 0; order := 1; total_steps := 2; timestep := 1;
         st_latents := @seeded_noise Ref.torch (Ref.services Run.env0) Run.two_steps 1 |}
      :: more.
Proof.
  destruct (@progress_snapshots Ref.torch (Ref.services Run.env0) Ref.diffusers
              Run.two_steps Run.pos0 Run.neg0 [3.5; 3.5]%float 1
              1%float [0.5; 0]%float)
    as [_ Hsnap].
  - apply setup_passes_env0; reflexivity.
  - reflexivity.
  - destruct (Hsnap 1) as (more & tr & r & Hfirst & _).
    + discriminate.
    + reflexivity.
    + reflexivity.
    + exists more. exact Hfirst.
Defined.


(** C8, as stated, fails: a denoising start of 1e-6 is greater than zero
    and no initial latents are provided, yet the configuration error is not
    reported.  The guard of line 261 compares the denoising start with 1e-5.
    With a denoising end of 1e-6 as well, the clipped schedule has one
    timestep and the run returns the seeded noise: a result, and no error.
    With a denoising end of 1, the run goes past the guard, emits the
    snapshot of step 0 and stops in the loop, with another exception than
    the [ValueError] of the guard. *)
Lemma small_denoising_start_accepted :
  ((0 <? denoising_start Run.tiny_range)%float = true /\
   latents Run.tiny_range = None /\
   Ref.clip (concat (Ref.rt_rows (Ref.linspace 1 0 (steps Run.tiny_range + 1))))
            (denoising_start Run.tiny_range) (denoising_end Run.tiny_range)
   = Ok [(1 - 1e-6)%float] /\
   Run.run Run.env0 Run.tiny_range
   = ([EvLoadModel transformer_attrs; EvLoadConditioning "pos"; EvLoadConditioning "neg"],
      Ok (@seeded_noise Ref.torch (Ref.services Run.env0) Run.tiny_range 1))) /\
  ((0 <? denoising_start Run.tiny_start)%float = true /\
   latents Run.tiny_start = None /\
   map step (snapshots (fst (Run.run Run.env0 Run.tiny_start))) = [0] /\
   snd (Run.run Run.env0 Run.tiny_start) = Raise (NameError "pooled_prompt_embeds")).
Proof. repeat split; reflexivity. Qed.

(** C10, as stated, fails: when the clipped schedule has one timestep, the
    run takes total_steps = 0 denoising steps and returns before the first
    snapshot: it emits no snapshot, not total_steps + 1 = 1. *)
Lemma no_snapshot_without_steps :
  Ref.clip (concat (Ref.rt_rows (Ref.linspace 1 0 (steps Run.renoise_only + 1))))
           (denoising_start Run.renoise_only) (denoising_end Run.renoise_only)
  = Ok [0.5%float] /\
  is_ok (snd (Run.run Run.env0 Run.renoise_only)) = true /\
  len (transformer_calls (fst (Run.run Run.env0 Run.renoise_only))) = len [0.5%float] - 1 /\
  len (snapshots (fst (Run.run Run.env0 Run.renoise_only))) <> (len [0.5%float] - 1) + 1.
Proof.
  repeat split; try reflexivity.
  intros H. vm_compute in H. discriminate H.
Qed.

(** C3, on the code: no iteration of the loop reaches the guidance
    combination of lines 314-316.  Whatever the transformer, the guidance
    scales and the latents, an iteration stops with [NameError] at line 308,
    where the arguments of the transformer call are evaluated: the
    transformer is not invoked, and no prediction is split or combined.  So
    the one-step run with guidance scale 1.0 emits the snapshot of step 0 and
    raises, without a transformer invocation. *)
Theorem guidance_combination_unreached :
  (forall (T : Torch) (TS : @Services T) (guided : bool) (transformer : Model)
          (dev : device) (prompt_embeds : Tensor) (scales : list float) (total : Z)
          (ext : option InpaintExtension) (s : Z * (float * float))
          (rest : list (Z * (float * float))) (latents : Tensor),
      denoise_loop guided transformer dev prompt_embeds scales total ext (s :: rest) latents
      = ([], Raise (NameError "pooled_prompt_embeds"))) /\
  _prepare_cfg_scale Run.one_step_unit_scale 1 = Ok [1%float] /\
  Run.run Run.env0 Run.one_step_unit_scale
  = ([EvLoadModel transformer_attrs; EvLoadConditioning "pos"; EvLoadConditioning "neg";
      EvStepCallback
        {| step := 0; order := 1; total_steps := 1; timestep := 1;
           st_latents :=
             @seeded_noise Ref.torch (Ref.services Run.env0) Run.one_step_unit_scale 1 |}
        "StableDiffusion3"],
     Raise (NameError "pooled_prompt_embeds")) /\
  transformer_calls (fst (Run.run Run.env0 Run.one_step_unit_scale)) = [].
Proof.
  split; [|repeat split; reflexivity].
  intros T TS guided transformer dev prompt_embeds scales total ext [idx [t_curr t_prev]]
         rest latents.
  reflexivity.
Qed.

(** C1, on the code: for steps = 2 the schedule builder returns a list of
    two timesteps, [1000, 1] (and [1000, 0.297...] with a scheduler that
    shifts); the run takes its schedule instead from the three timesteps
    [1, 0.5, 0] of the linear schedule that line 228 assigns to the same
    variable: the snapshot of step 0, the only one, reports two steps in
    total and the timestep [int(1.0) = 1], where the builder's list has one
    step and starts at 1000; and the run is the same whatever the scheduler
    resolves. *)
Theorem loop_runs_on_linear_schedule :
  Run.builder_schedule Ref.diffusers Run.env0 (steps Run.two_steps) 1
  = Ok [1000; 1]%float /\
  Run.builder_schedule Ref.shifting_diffusers Run.env0 (steps Run.two_steps) 1
  = Ok [1000;
        Ref.round_to float32
          (Ref.shift_sigma 0.296875 (Ref.round_to float32 0.001) * 1000)]%float /\
  Ref.clip (concat (Ref.rt_rows (Ref.linspace 1 0 (steps Run.two_steps + 1))))
           (denoising_start Run.two_steps) (denoising_end Run.two_steps)
  = Ok [1; 0.5; 0]%float /\
  snapshots (fst (Run.run Run.env0 Run.two_steps))
  = [{| step := 0; order := 1; total_steps := 2; timestep := 1;
        st_latents := @seeded_noise Ref.torch (Ref.services Run.env0) Run.two_steps 1 |}] /\
  @_run_diffusion Ref.torch (Ref.services Run.env0) Ref.shifting_diffusers Run.two_steps
  = Run.run Run.env0 Run.two_steps.
Proof. repeat split; reflexivity. Qed.

(** * Further properties of the code *)

(** ** More on the denoising run *)

(** Runs the preparation of [_run_diffusion] up to the load of the initial
    latents, with the facts of [setup_passes] at hand. *)
Ltac walk_setup Hsetup :=
  let Hcog := fresh "Hcog" in
  let Hpos := fresh "Hpos" in
  let Hneg := fresh "Hneg" in
  let Hlsf := fresh "Hlsf" in
  let Hps := fresh "Hps" in
  let Hclip := fresh "Hclip" in
  let Hcfg := fresh "Hcfg" in
  let Hch := fresh "Hch" in
  let Hlsf' := fresh "Hlsf" in
  let Hps' := fresh "Hps" in
  destruct Hsetup as (Hcog & Hpos & Hneg & Hlsf & Hps & Hclip & Hcfg & Hch);
  unfold _run_diffusion;
  rewrite bind_emit; cbn beta; rewrite Hcog; cbn [py_assert]; rewrite bind_lift_ok;
  rewrite (load_text_conditioning_ok _ _ _ _ Hpos), bind_ok;
  rewrite (load_text_conditioning_ok _ _ _ _ Hneg), bind_ok;
  unfold py_floordiv;
  pose proof (proj2 (Z.eqb_neq _ _) Hlsf) as Hlsf';
  assert (Hps' : (config_patch_size (load_by_attrs transformer_attrs) ^ 2 =? 0) = false)
    by (apply Z.eqb_neq; apply Z.pow_nonzero; [exact Hps | lia]);
  rewrite Hlsf', !bind_lift_ok, Hps', bind_lift_ok;
  unfold _prepare_timesteps, _calculate_timestep_shift, py_truediv;
  cbn [config base_image_seq_len scheduler_defaults _init_scheduler Z.eqb res_bind];
  rewrite bind_lift_ok, Hclip, bind_lift_ok, Hcfg, bind_lift_ok;
  rewrite Hch;
  cbn [fst snd].

Section RunMore.

Context `{T : Torch} `{TS : !Services} `{DF : !Diffusers}.

(** After a preparation that passes, a run ends in one of three ways.  It
    raises after its loads, before any snapshot.  Or it returns at the
    short-circuit, after its loads only, its clipped schedule having at most
    one timestep.  Or it emits the snapshot of step 0 and stops in the first
    iteration of the loop. *)
Lemma run_shape
    (self : CogView4DenoiseInvocation) (pos neg : Tensor)
    (timesteps scales : list float) (channels : Z) :
  setup_passes self pos neg timesteps scales channels ->
  (exists e, _run_diffusion self = (setup_events self, Raise e))
  \/ (len timesteps <= 1 /\ exists out, _run_diffusion self = (setup_events self, Ok out))
  \/ (exists t0 t1 rest k,
        timesteps = t0 :: t1 :: rest /\
        py_int t0 = Ok k /\
        _run_diffusion self
        = (setup_events self
           ++ [EvStepCallback
                 {| step := 0; order := 1; total_steps := len timesteps - 1;
                    timestep := k; st_latents := initial_latents self channels t0 |}
                 "StableDiffusion3"],
           Raise (if isinstance_SD3Transformer2DModel
                       (model_on_device (load_by_attrs transformer_attrs))
                  then NameError "pooled_prompt_embeds"
                  else AssertionError))).
Proof.
  intros Hsetup.
  destruct timesteps as [|t0 [|t1 rest]].
  - (* no timestep *)
    walk_setup Hsetup. unfold setup_events.
    destruct (latents self) as [latents_name|].
    + left. rewrite bind_emit. cbn [ret fst snd]. rewrite bind_ok. cbn [fst snd].
      rewrite bind_ret, get_noise_ok, bind_lift_ok by assumption.
      eexists. reflexivity.
    + rewrite !bind_ret, get_noise_ok, bind_lift_ok by assumption.
      destruct (1e-5 <? denoising_start self)%float.
      * left. eexists. reflexivity.
      * right. left. split; [unfold len; simpl; lia|].
        rewrite bind_ret. eexists. reflexivity.
  - (* one timestep *)
    destruct (latents self) as [latents_name|] eqn:Hlat.
    + right. left. split; [unfold len; simpl; lia|]. eexists.
      apply (run_diffusion_short_circuit self pos neg t0 scales channels Hsetup).
      intros H. rewrite Hlat in H. discriminate.
    + destruct (1e-5 <? denoising_start self)%float eqn:Hstart.
      * left. eexists.
        exact (rejected_after_setup self pos neg [t0] scales channels Hsetup Hlat Hstart).
      * right. left. split; [unfold len; simpl; lia|]. eexists.
        apply (run_diffusion_short_circuit self pos neg t0 scales channels Hsetup).
        intros _. exact Hstart.
  - (* two timesteps or more *)
    assert (Hlen : (len (t0 :: t1 :: rest) <=? 1) = false).
    { apply Z.leb_gt. rewrite !len_cons. pose proof (len_nonneg rest). lia. }
    destruct (latents self) as [latents_name|] eqn:Hlat.
    + destruct (py_int t0) as [k|e] eqn:Hint.
      * right. right. exists t0, t1, rest, k. split; [reflexivity|].
        split; [exact Hint|].
        apply (run_diffusion_first_iteration self pos neg t0 t1 rest scales channels k
                 Hsetup); [| | exact Hint]; intros H; rewrite Hlat in H; discriminate.
      * left. walk_setup Hsetup. unfold setup_events. rewrite Hlat.
        rewrite bind_emit. cbn [ret fst snd]. rewrite bind_ok. cbn [fst snd].
        rewrite bind_ret, get_noise_ok, bind_lift_ok by assumption.
        rewrite py_index_zero, bind_lift_ok, bind_ret, Hlen.
        destruct (_prep_inpaint_mask self _);
          rewrite bind_ret, bind_lift_ok, Hint; eexists; reflexivity.
    + destruct (1e-5 <? denoising_start self)%float eqn:Hstart.
      * left. eexists.
        exact (rejected_after_setup self pos neg (t0 :: t1 :: rest) scales channels
                 Hsetup Hlat Hstart).
      * assert (Hx0 : initial_latents self channels t0 = seeded_noise self channels).
        { unfold initial_latents. now rewrite Hlat. }
        destruct (_prep_inpaint_mask self (seeded_noise self channels)) as [mask|] eqn:Hmask.
        -- left. walk_setup Hsetup. unfold setup_events.
           rewrite Hlat, !bind_ret, get_noise_ok, bind_lift_ok by assumption.
           rewrite Hstart, bind_ret, Hlen, Hmask. eexists. reflexivity.
        -- destruct (py_int t0) as [k|e] eqn:Hint.
           ++ right. right. exists t0, t1, rest, k. split; [reflexivity|].
              split; [exact Hint|].
              apply (run_diffusion_first_iteration self pos neg t0 t1 rest scales
                       channels k Hsetup); [| | exact Hint]; intros _.
              ** exact Hstart.
              ** rewrite Hx0. exact Hmask.
           ++ left. walk_setup Hsetup. unfold setup_events.
              rewrite Hlat, !bind_ret, get_noise_ok, bind_lift_ok by assumption.
              rewrite Hstart, bind_ret, Hlen, Hmask.
              rewrite bind_ret, py_index_zero, bind_lift_ok, Hint. eexists. reflexivity.
Qed.

Lemma load_text_conditioning_fails (name : string) (dt : dtype) (dv : device) :
  (forall glm, conditioning_load name <> [CogView4ConditioningInfo glm]) ->
  _load_text_conditioning name dt dv = ([EvLoadConditioning name], Raise AssertionError).
Proof.
  intros Hnot. unfold _load_text_conditioning. rewrite bind_emit.
  destruct (conditioning_load name) as [|c [|c' l]] eqn:Hload.
  - reflexivity.
  - destruct c as [glm|]; [|reflexivity]. now destruct (Hnot glm).
  - assert (Hlen : (len (c :: c' :: l) =? 1) = false).
    { apply Z.eqb_neq. rewrite !len_cons. pose proof (len_nonneg l). lia. }
    rewrite Hlen. reflexivity.
Qed.

(** [_load_text_conditioning] loads the conditioning once.  It returns the
    embedding, cast to the dtype and device, when the record holds exactly
    one CogView4 conditioning, and raises [AssertionError] in every other
    case: no record, several records, or a record of another kind. *)
Theorem load_text_conditioning_behaviour (name : string) (dt : dtype) (dv : device) :
  (forall glm,
      conditioning_load name = [CogView4ConditioningInfo glm] ->
      _load_text_conditioning name dt dv
      = ([EvLoadConditioning name], Ok (tensor_to (Some dv) (Some dt) glm)))
  /\ ((forall glm, conditioning_load name <> [CogView4ConditioningInfo glm]) ->
      _load_text_conditioning name dt dv = ([EvLoadConditioning name], Raise AssertionError)).
Proof.
  split.
  - intros glm Hload. now apply load_text_conditioning_ok.
  - apply load_text_conditioning_fails.
Qed.

(** When the loaded model is not a CogView4 transformer, the run raises
    [AssertionError] right after the model is loaded: no conditioning and no
    tensor is loaded. *)
Theorem wrong_model_class_rejected (self : CogView4DenoiseInvocation) :
  isinstance_CogView4Transformer2DModel (load_by_attrs transformer_attrs) = false ->
  _run_diffusion self = ([EvLoadModel transformer_attrs], Raise AssertionError).
Proof.
  intros Hcog. unfold _run_diffusion. rewrite bind_emit. cbn beta. rewrite Hcog.
  reflexivity.
Qed.

(** When the positive conditioning does not hold exactly one CogView4
    record, the run raises [AssertionError] after loading it: the negative
    conditioning is never loaded. *)
Theorem bad_positive_conditioning_rejected (self : CogView4DenoiseInvocation) :
  isinstance_CogView4Transformer2DModel (load_by_attrs transformer_attrs) = true ->
  (forall glm,
      conditioning_load (positive_conditioning self) <> [CogView4ConditioningInfo glm]) ->
  _run_diffusion self
  = ([EvLoadModel transformer_attrs; EvLoadConditioning (positive_conditioning self)],
     Raise AssertionError).
Proof.
  intros Hcog Hbad. unfold _run_diffusion. rewrite bind_emit. cbn beta. rewrite Hcog.
  cbn [py_assert]. rewrite bind_lift_ok.
  rewrite (load_text_conditioning_fails _ _ _ Hbad). reflexivity.
Qed.

(** When the schedule cannot be clipped, or the guidance scales do not
    resolve for the clipped schedule (a list whose length is not the number
    of steps, a value of another type), the exception stops the run after
    the model and the two conditionings are loaded: the initial latents are
    not loaded, no snapshot is emitted and no step is taken. *)
Theorem schedule_or_scale_error_stops_run
    (self : CogView4DenoiseInvocation) (pos neg : Tensor) (e : PyError) :
  isinstance_CogView4Transformer2DModel (load_by_attrs transformer_attrs) = true ->
  conditioning_load (positive_conditioning self) = [CogView4ConditioningInfo pos] ->
  conditioning_load (negative_conditioning self) = [CogView4ConditioningInfo neg] ->
  LATENT_SCALE_FACTOR <> 0 ->
  config_patch_size (load_by_attrs transformer_attrs) <> 0 ->
  (clip_timestep_schedule_fractional
     (tensor_tolist (torch_linspace 1 0 (steps self + 1)))
     (denoising_start self) (denoising_end self) = Raise e
   \/ exists timesteps,
        clip_timestep_schedule_fractional
          (tensor_tolist (torch_linspace 1 0 (steps self + 1)))
          (denoising_start self) (denoising_end self) = Ok timesteps /\
        _prepare_cfg_scale self (len timesteps - 1) = Raise e) ->
  _run_diffusion self
  = ([EvLoadModel transformer_attrs;
      EvLoadConditioning (positive_conditioning self);
      EvLoadConditioning (negative_conditioning self)],
     Raise e).
Proof.
  intros Hcog Hpos Hneg Hlsf Hps Hfail.
  unfold _run_diffusion.
  rewrite bind_emit. cbn beta. rewrite Hcog. cbn [py_assert]. rewrite bind_lift_ok.
  rewrite (load_text_conditioning_ok _ _ _ _ Hpos), bind_ok.
  rewrite (load_text_conditioning_ok _ _ _ _ Hneg), bind_ok.
  unfold py_floordiv.
  apply Z.eqb_neq in Hlsf.
  assert (Hps' : (config_patch_size (load_by_attrs transformer_attrs) ^ 2 =? 0) = false)
    by (apply Z.eqb_neq; apply Z.pow_nonzero; [exact Hps | lia]).
  rewrite Hlsf, !bind_lift_ok, Hps', bind_lift_ok.
  unfold _prepare_timesteps, _calculate_timestep_shift, py_truediv.
  cbn [config base_image_seq_len scheduler_defaults _init_scheduler Z.eqb res_bind].
  rewrite bind_lift_ok.
  destruct Hfail as [Hclip | (timesteps & Hclip & Hcfg)]; rewrite Hclip.
  - reflexivity.
  - rewrite bind_lift_ok, Hcfg. reflexivity.
Qed.

(** An inpaint mask without initial latents is an [AssertionError], raised
    after the loads and before the first snapshot. *)
Theorem mask_without_initial_latents_rejected
    (self : CogView4DenoiseInvocation) (pos neg mask : Tensor)
    (timesteps scales : list float) (channels : Z) :
  setup_passes self pos neg timesteps scales channels ->
  latents self = None ->
  (1e-5 <? denoising_start self)%float = false ->
  2 <= len timesteps ->
  _prep_inpaint_mask self (seeded_noise self channels) = Some mask ->
  _run_diffusion self = (setup_events self, Raise AssertionError).
Proof.
  intros Hsetup Hlat Hstart Hlen Hmask. walk_setup Hsetup. unfold setup_events.
  rewrite Hlat, !bind_ret, get_noise_ok, bind_lift_ok by assumption.
  rewrite Hstart, bind_ret.
  assert (Hle : (len timesteps <=? 1) = false) by (apply Z.leb_gt; lia).
  rewrite Hle, Hmask. reflexivity.
Qed.

(** When the transformer on the device is not an SD3 transformer, the run
    raises [AssertionError] after the snapshot of step 0 has been emitted:
    one snapshot, and no transformer invocation. *)
Theorem wrong_transformer_class_rejected
    (self : CogView4DenoiseInvocation) (pos neg : Tensor)
    (t0 t1 : float) (rest scales : list float) (channels k : Z) :
  setup_passes self pos neg (t0 :: t1 :: rest) scales channels ->
  (latents self = None -> (1e-5 <? denoising_start self)%float = false) ->
  (latents self = None ->
   _prep_inpaint_mask self (initial_latents self channels t0) = None) ->
  py_int t0 = Ok k ->
  isinstance_SD3Transformer2DModel (model_on_device (load_by_attrs transformer_attrs))
  = false ->
  _run_diffusion self
  = (setup_events self
     ++ [EvStepCallback
           {| step := 0; order := 1; total_steps := len (t0 :: t1 :: rest) - 1;
              timestep := k; st_latents := initial_latents self channels t0 |}
           "StableDiffusion3"],
     Raise AssertionError).
Proof.
  intros Hsetup Hstart Hmask Hint Hsd3.
  assert (Hlen : (len (t0 :: t1 :: rest) <=? 1) = false).
  { apply Z.leb_gt. rewrite !len_cons. pose proof (len_nonneg rest). lia. }
  walk_setup Hsetup. unfold initial_latents, setup_events in *.
  destruct (latents self) as [latents_name|].
  - rewrite bind_emit. cbn [ret fst snd]. rewrite bind_ok. cbn [fst snd].
    rewrite bind_ret, get_noise_ok, bind_lift_ok by assumption.
    rewrite py_index_zero, bind_lift_ok, bind_ret, Hlen.
    destruct (_prep_inpaint_mask self _);
      rewrite bind_ret, bind_lift_ok, Hint, bind_lift_ok, bind_emit;
      cbn beta; rewrite Hsd3; reflexivity.
  - rewrite !bind_ret, get_noise_ok, bind_lift_ok by assumption.
    rewrite (Hstart eq_refl), bind_ret, Hlen, (Hmask eq_refl).
    rewrite bind_ret, py_index_zero, bind_lift_ok, Hint, bind_lift_ok, bind_emit.
    cbn beta. rewrite Hsd3. reflexivity.
Qed.

(** A run whose clipped schedule has two timesteps or more never returns:
    when its checks pass, it emits the snapshot of step 0 and raises
    [NameError] in the first iteration of the loop, at line 308, where the
    name [pooled_prompt_embeds] is bound by nothing.  This holds with and
    without initial latents, inpaint mask included. *)
Theorem run_stops_in_first_iteration
    (self : CogView4DenoiseInvocation) (pos neg : Tensor)
    (t0 t1 : float) (rest scales : list float) (channels k : Z) :
  setup_passes self pos neg (t0 :: t1 :: rest) scales channels ->
  (latents self = None -> (1e-5 <? denoising_start self)%float = false) ->
  (latents self = None ->
   _prep_inpaint_mask self (initial_latents self channels t0) = None) ->
  py_int t0 = Ok k ->
  isinstance_SD3Transformer2DModel (model_on_device (load_by_attrs transformer_attrs))
  = true ->
  _run_diffusion self
  = (setup_events self
     ++ [EvStepCallback
           {| step := 0; order := 1; total_steps := len (t0 :: t1 :: rest) - 1;
              timestep := k; st_latents := initial_latents self channels t0 |}
           "StableDiffusion3"],
     Raise (NameError "pooled_prompt_embeds")).
Proof.
  intros Hsetup Hstart Hmask Hint Hsd3.
  rewrite (run_diffusion_first_iteration self pos neg t0 t1 rest scales channels k
             Hsetup Hstart Hmask Hint).
  now rewrite Hsd3.
Qed.

(** A run returns only at the short-circuit: a run that returns has
    performed its loads and nothing else, emitted no snapshot, and its
    clipped schedule has at most one timestep. *)
Theorem returning_run_short_circuits (self : CogView4DenoiseInvocation) (out : Tensor) :
  snd (_run_diffusion self) = Ok out ->
  fst (_run_diffusion self) = setup_events self /\
  snapshots (fst (_run_diffusion self)) = [] /\
  exists timesteps,
    clip_timestep_schedule_fractional
      (tensor_tolist (torch_linspace 1 0 (steps self + 1)))
      (denoising_start self) (denoising_end self) = Ok timesteps /\
    len timesteps <= 1.
Proof.
  intros Hok.
  destruct (run_diffusion_cases self)
    as [(Hno & _) | (pos & neg & ts & scales & channels & Hsetup)].
  - rewrite Hok in Hno. discriminate.
  - destruct (run_shape self pos neg ts scales channels Hsetup)
      as [[e Hrun] | [[Hlen [out' Hrun]] | (t0 & t1 & rest & k & _ & _ & Hrun)]];
      rewrite Hrun in Hok |- *; cbn [fst snd] in Hok |- *; try discriminate.
    split; [reflexivity|]. split; [apply setup_events_quiet|].
    exists ts. split; [|exact Hlen].
    destruct Hsetup as (_ & _ & _ & _ & _ & Hclip & _). exact Hclip.
Qed.

(** No run invokes the transformer.  A run emits at most one snapshot, and
    a run that emits one raises. *)
Theorem transformer_never_invoked (self : CogView4DenoiseInvocation) :
  transformer_calls (fst (_run_diffusion self)) = [] /\
  (length (snapshots (fst (_run_diffusion self))) <= 1)%nat /\
  (snapshots (fst (_run_diffusion self)) <> [] ->
   is_ok (snd (_run_diffusion self)) = false).
Proof.
  destruct (run_diffusion_cases self)
    as [(Hno & Hs & Hc) | (pos & neg & ts & scales & channels & Hsetup)].
  - rewrite Hs, Hc. split; [reflexivity|]. split; [apply Nat.le_0_l|].
    intros H. now destruct H.
  - destruct (setup_events_quiet self) as [Hq1 Hq2].
    destruct (run_shape self pos neg ts scales channels Hsetup)
      as [[e Hrun] | [[_ [out Hrun]] | (t0 & t1 & rest & k & _ & _ & Hrun)]];
      rewrite Hrun; cbn [fst snd].
    + rewrite Hq1, Hq2. split; [reflexivity|]. split; [apply Nat.le_0_l|].
      intros H. now destruct H.
    + rewrite Hq1, Hq2. split; [reflexivity|]. split; [apply Nat.le_0_l|].
      intros H. now destruct H.
    + rewrite snapshots_app, transformer_calls_app, Hq1, Hq2.
      split; [reflexivity|]. split; [apply Nat.le_refl | reflexivity].
Qed.

End RunMore.

(** ** The entry point *)

Section InvokeFacts.

Context `{T : Torch} `{TS : !Services} `{DF : !Diffusers} `{PS : !Persistence}.

Lemma saved_tensors_diffusion (tr : list Event) (l : list InvokeEvent) :
  saved_tensors (map EvDiffusion tr ++ l) = saved_tensors l.
Proof. induction tr as [|ev tr IH]; cbn; auto. Qed.

Lemma diffusion_events_diffusion (tr : list Event) (l : list InvokeEvent) :
  diffusion_events (map EvDiffusion tr ++ l) = tr ++ diffusion_events l.
Proof. induction tr as [|ev tr IH]; cbn; [|rewrite IH]; reflexivity. Qed.

Lemma invoke_events (self : CogView4DenoiseInvocation) :
  diffusion_events (fst (invoke self)) = fst (_run_diffusion self) /\
  (forall e,
      snd (_run_diffusion self) = Raise e ->
      saved_tensors (fst (invoke self)) = [] /\ snd (invoke self) = Raise e).
Proof.
  unfold invoke. destruct (_run_diffusion self) as [tr [out|e]]; cbn [fst snd].
  - split; [|discriminate].
    rewrite diffusion_events_diffusion. cbn. apply app_nil_r.
  - split.
    + rewrite <- (app_nil_r (map EvDiffusion tr)), diffusion_events_diffusion.
      cbn. apply app_nil_r.
    + intros e' H. injection H as <-.
      rewrite <- (app_nil_r (map EvDiffusion tr)), saved_tensors_diffusion.
      split; reflexivity.
Qed.

(** [invoke] performs the events of the diffusion, in their order, and
    saves a tensor only when the diffusion returns: then it saves once, last,
    the detached result moved to the cpu, and returns the output built from
    the name the save gave and that tensor, without a seed.  When the
    diffusion raises, nothing is saved and the exception is raised
    unchanged. *)
Theorem invoke_saves_only_results (self : CogView4DenoiseInvocation) :
  diffusion_events (fst (invoke self)) = fst (_run_diffusion self) /\
  (forall out,
      snd (_run_diffusion self) = Ok out ->
      let saved := tensor_to (Some cpu) None (tensor_detach out) in
      saved_tensors (fst (invoke self)) = [saved] /\
      (exists tr, fst (invoke self) = tr ++ [EvSaveTensor saved]) /\
      snd (invoke self) = Ok (LatentsOutput_build (tensors_save saved) saved None)) /\
  (forall e,
      snd (_run_diffusion self) = Raise e ->
      saved_tensors (fst (invoke self)) = [] /\ snd (invoke self) = Raise e).
Proof.
  unfold invoke. destruct (_run_diffusion self) as [tr [out|e]]; cbn [fst snd].
  - split; [|split].
    + rewrite diffusion_events_diffusion. cbn. apply app_nil_r.
    + intros out' H. injection H as <-. cbn zeta.
      rewrite saved_tensors_diffusion. split; [reflexivity|].
      split; [eexists|]; reflexivity.
    + discriminate.
  - split; [|split].
    + rewrite <- (app_nil_r (map EvDiffusion tr)), diffusion_events_diffusion.
      cbn. apply app_nil_r.
    + discriminate.
    + intros e' H. injection H as <-.
      rewrite <- (app_nil_r (map EvDiffusion tr)), saved_tensors_diffusion.
      split; reflexivity.
Qed.

(** An invocation that asks for a denoising start above 1e-5 without
    initial latents saves nothing: [invoke] raises, and its events hold no
    save, no snapshot and no transformer invocation. *)
Theorem invoke_rejects_start_without_latents (self : CogView4DenoiseInvocation) :
  latents self = None ->
  (1e-5 <? denoising_start self)%float = true ->
  is_ok (snd (invoke self)) = false /\
  saved_tensors (fst (invoke self)) = [] /\
  snapshots (diffusion_events (fst (invoke self))) = [] /\
  transformer_calls (diffusion_events (fst (invoke self))) = [].
Proof.
  intros Hlat Hstart.
  assert (Hrun : is_ok (snd (_run_diffusion self)) = false /\
                 snapshots (fst (_run_diffusion self)) = [] /\
                 transformer_calls (fst (_run_diffusion self)) = []).
  { destruct (run_diffusion_cases self)
      as [Hquiet | (pos & neg & ts & scales & channels & Hsetup)]; [exact Hquiet|].
    rewrite (rejected_after_setup self pos neg ts scales channels Hsetup Hlat Hstart).
    unfold setup_events. rewrite Hlat. repeat split. }
  destruct Hrun as (Hok & Hs & Hc).
  destruct (invoke_events self) as [Hev Hres].
  rewrite Hev. repeat split; try assumption.
  - destruct (snd (_run_diffusion self)) as [out|e] eqn:Hr; [discriminate|].
    now rewrite (proj2 (Hres e eq_refl)).
  - destruct (snd (_run_diffusion self)) as [out|e] eqn:Hr; [discriminate|].
    exact (proj1 (Hres e eq_refl)).
Qed.

End InvokeFacts.

(** ** Further runs on the reference implementation *)

Lemma setup_passes_ref (self : CogView4DenoiseInvocation) (env : Ref.Env)
    (timesteps scales : list float) :
  positive_conditioning self = "pos" ->
  negative_conditioning self = "neg" ->
  Ref.rm_is_cogview4 (Ref.env_model env) = true ->
  Ref.rm_patch_size (Ref.env_model env) = 2 ->
  Ref.rm_in_channels (Ref.env_model env) = Some 1 ->
  Ref.env_conditioning env = Run.conditioning_store Run.neg0 Run.pos0 ->
  Ref.clip (concat (Ref.rt_rows (Ref.linspace 1 0 (steps self + 1))))
           (denoising_start self) (denoising_end self) = Ok timesteps ->
  _prepare_cfg_scale self (len timesteps - 1) = Ok scales ->
  @setup_passes Ref.torch (Ref.services env) self Run.pos0 Run.neg0 timesteps scales 1.
Proof.
  intros Hp Hn Hm Hps Hch Hc Hclip Hcfg. unfold setup_passes.
  cbn [Ref.services Ref.torch load_by_attrs conditioning_load LATENT_SCALE_FACTOR
       isinstance_CogView4Transformer2DModel config_patch_size config_in_channels
       clip_timestep_schedule_fractional tensor_tolist torch_linspace].
  rewrite Hp, Hn, Hm, Hps, Hch, Hc. repeat split; try assumption; discriminate.
Qed.

Lemma wrong_model_class_rejected_witness :
  @_run_diffusion Ref.torch (Ref.services (Edge.env_with Edge.other_model None))
    Ref.diffusers Run.two_steps
  = ([EvLoadModel transformer_attrs], Raise AssertionError).
Proof.
  apply (@wrong_model_class_rejected Ref.torch
           (Ref.services (Edge.env_with Edge.other_model None)) Ref.diffusers
           Run.two_steps).
  reflexivity.
Defined.

Lemma bad_positive_conditioning_rejected_witness :
  Run.run Run.env0 Edge.unknown_conditioning
  = ([EvLoadModel transformer_attrs; EvLoadConditioning "missing"], Raise AssertionError).
Proof.
  apply (@bad_positive_conditioning_rejected Ref.torch (Ref.services Run.env0)
           Ref.diffusers Edge.unknown_conditioning).
  - reflexivity.
  - intros glm. discriminate.
Defined.

Lemma schedule_or_scale_error_stops_run_witness :
  Run.run Run.env0 Edge.three_scales
  = ([EvLoadModel transformer_attrs; EvLoadConditioning "pos"; EvLoadConditioning "neg"],
     Raise AssertionError).
Proof.
  apply (@schedule_or_scale_error_stops_run Ref.torch (Ref.services Run.env0)
           Ref.diffusers Edge.three_scales Run.pos0 Run.neg0 AssertionError).
  - reflexivity.
  - reflexivity.
  - reflexivity.
  - discriminate.
  - discriminate.
  - right. exists [1; 0.5; 0]%float. split; reflexivity.
Defined.

Lemma mask_without_initial_latents_rejected_witness :
  @_run_diffusion Ref.torch
    (Ref.services (Edge.env_with Run.echo_model (Some Edge.mask0)))
    Ref.diffusers Run.two_steps
  = ([EvLoadModel transformer_attrs; EvLoadConditioning "pos"; EvLoadConditioning "neg"],
     Raise AssertionError).
Proof.
  apply (@mask_without_initial_latents_rejected Ref.torch
           (Ref.services (Edge.env_with Run.echo_model (Some Edge.mask0)))
           Ref.diffusers Run.two_steps Run.pos0 Run.neg0 Edge.mask0
           [1; 0.5; 0]%float [3.5; 3.5]%float 1).
  - apply setup_passes_ref; reflexivity.
  - reflexivity.
  - reflexivity.
  - vm_compute. discriminate.
  - reflexivity.
Defined.

Lemma wrong_transformer_class_rejected_witness :
  len (snapshots
         (fst (@_run_diffusion Ref.torch
                 (Ref.services (Edge.env_with Edge.cogview4_only_model None))
                 Ref.diffusers Run.two_steps))) = 1 /\
  transformer_calls
    (fst (@_run_diffusion Ref.torch
            (Ref.services (Edge.env_with Edge.cogview4_only_model None))
            Ref.diffusers Run.two_steps)) = [] /\
  snd (@_run_diffusion Ref.torch
         (Ref.services (Edge.env_with Edge.cogview4_only_model None))
         Ref.diffusers Run.two_steps) = Raise AssertionError.
Proof.
  rewrite (@wrong_transformer_class_rejected Ref.torch
             (Ref.services (Edge.env_with Edge.cogview4_only_model None))
             Ref.diffusers Run.two_steps Run.pos0 Run.neg0
             1%float 0.5%float [0%float] [3.5; 3.5]%float 1 1).
  - repeat split.
  - apply setup_passes_ref; reflexivity.
  - reflexivity.
  - reflexivity.
  - reflexivity.
  - reflexivity.
Defined.

Lemma run_stops_in_first_iteration_witness :
  @_run_diffusion Ref.torch
    (Ref.services (Edge.env_with Run.echo_model (Some Edge.mask0)))
    Ref.diffusers Edge.img2img
  = ([EvLoadModel transformer_attrs; EvLoadConditioning "pos"; EvLoadConditioning "neg";
      EvLoadTensor "init";
      EvStepCallback
        {| step := 0; order := 1; total_steps := 1; timestep := 0;
           st_latents :=
             @initial_latents Ref.torch
               (Ref.services (Edge.env_with Run.echo_model (Some Edge.mask0)))
               Edge.img2img 1 0.5 |}
        "StableDiffusion3"],
     Raise (NameError "pooled_prompt_embeds")).
Proof.
  apply (@run_stops_in_first_iteration Ref.torch
           (Ref.services (Edge.env_with Run.echo_model (Some Edge.mask0)))
           Ref.diffusers Edge.img2img Run.pos0 Run.neg0
           0.5%float 0%float [] [3.5%float] 1 0).
  - apply setup_passes_ref; reflexivity.
  - discriminate.
  - discriminate.
  - reflexivity.
  - reflexivity.
Defined.

Lemma returning_run_short_circuits_witness :
  fst (Run.run Run.env0 Run.renoise_only)
  = [EvLoadModel transformer_attrs; EvLoadConditioning "pos"; EvLoadConditioning "neg";
     EvLoadTensor "init"].
Proof.
  destruct (@returning_run_short_circuits Ref.torch (Ref.services Run.env0) Ref.diffusers
              Run.renoise_only
              (@initial_latents Ref.torch (Ref.services Run.env0) Run.renoise_only 1 0.5))
    as [Hloads _].
  - reflexivity.
  - exact Hloads.
Defined.

Lemma invoke_rejects_start_without_latents_witness :
  saved_tensors
    (fst (@invoke Ref.torch (Ref.services Run.env0) Ref.diffusers Edge.persistence
            Run.late_start)) = [] /\
  is_ok (snd (@invoke Ref.torch (Ref.services Run.env0) Ref.diffusers Edge.persistence
                Run.late_start)) = false.
Proof.
  destruct (@invoke_rejects_start_without_latents Ref.torch (Ref.services Run.env0)
              Ref.diffusers Edge.persistence Run.late_start)
    as (Hok & Hsaved & _).
  - reflexivity.
  - reflexivity.
  - split; assumption.
Defined.
